(** * Food Info Backend: the response-normalisation core of [backend/main.py]

    A shallow embedding of the helpers [_ensure_api_key], [_simplify_foods],
    [_extract_key_nutrients] and of the two handlers [search_foods] and
    [get_food_details], followed by the properties the specification states
    about them.

    Upstream payloads are untyped JSON documents, so the embedding works on
    a type [value] of the Python objects a JSON parser can return.  Python
    exceptions are results of the [result] monad; the outbound HTTP client is
    a stub transport together with a log of the calls made. *)

From Stdlib Require Import ZArith String Ascii PrimFloat SpecFloat FloatOps.
From stdpp Require Import base option list gmap strings pretty.

Local Open Scope Z_scope.

Set Warnings "-register-all".

(** ** Python values and exceptions *)

(** What [json.loads] can return: [None], [bool], [int] (unbounded),
    [float] (IEEE binary64), [str], [list] and [dict] with [str] keys. *)
Inductive value : Type :=
  | VNull
  | VBool (b : bool)
  | VInt (z : Z)
  | VFloat (f : PrimFloat.float)
  | VStr (s : string)
  | VList (l : list value)
  | VDict (d : gmap string value).

Inductive exn : Type :=
  | HTTPException (status_code : Z) (detail : string)
  | AttributeError
  | TypeError
  | ValueError
  | OverflowError
  | JSONDecodeError.

(** A computation either returns or raises. *)
Inductive result (A : Type) : Type :=
  | Ok (a : A)
  | Raise (e : exn).
Arguments Ok {A} a.
Arguments Raise {A} e.

#[global] Instance result_ret : MRet result := fun A a => Ok a.
#[global] Instance result_bind : MBind result := fun A B k m =>
  match m with
  | Ok a => k a
  | Raise e => Raise e
  end.

(** A [for] loop whose body may raise: the exception leaves the loop. *)
Fixpoint for_each {A S : Type} (body : S → A → result S) (s : S) (xs : list A)
  : result S :=
  match xs with
  | [] => Ok s
  | x :: xs' => s' ← body s x; for_each body s' xs'
  end.

(** ** Built-in operations of the interpreter *)

(** Truth value of an object, as [or], [not] and [if] test it. *)
Definition truthy (v : value) : bool :=
  match v with
  | VNull => false
  | VBool b => b
  | VInt z => negb (z =? 0)
  | VFloat f => negb (PrimFloat.eqb f 0%float)
  | VStr s => negb (Nat.eqb (String.length s) 0)
  | VList l => negb (Nat.eqb (length l) 0)
  | VDict d => negb (Nat.eqb (size d) 0)
  end.

(** [a or b] *)
Definition py_or (a b : value) : value := if truthy a then a else b.

(** [v is None] *)
Definition is_None (v : value) : bool :=
  match v with
  | VNull => true
  | _ => false
  end.


(** The integer an [int] instance stands for ([True] is 1, [False] is 0);
    this is also what a Pydantic [int] field stores for it. *)
Definition int_value (v : value) : option Z :=
  match v with
  | VInt z => Some z
  | VBool b => Some (Z.b2z b)
  | _ => None
  end.

(** [v.get(key)] and [v.get(key, dflt)]: only a [dict] has the method. *)
Definition py_get_default (v : value) (key : string) (dflt : value) : result value :=
  match v with
  | VDict d => Ok (default dflt (d !! key))
  | _ => Raise AttributeError
  end.

Definition py_get (v : value) (key : string) : result value :=
  py_get_default v key VNull.

(** The elements a [for] loop visits.  A [str] yields its characters and a
    [dict] its keys; both are again [str] objects (the loops below fail on
    their first element whatever it is, so the order of keys plays no role).
    Numbers and booleans are not iterable. *)
Definition py_iter (v : value) : result (list value) :=
  match v with
  | VList l => Ok l
  | VStr s => Ok ((λ c, VStr (String c EmptyString)) <$> list_ascii_of_string s)
  | VDict d => Ok (VStr <$> (map_to_list d).*1)
  | VNull | VBool _ | VInt _ | VFloat _ => Raise TypeError
  end.

(** [float(z)] for an [int]: rounded to the nearest binary64, and
    [OverflowError] when the integer is too large. *)
Definition float_of_Z (z : Z) : result PrimFloat.float :=
  let f := SF2Prim (binary_normalize 53 1024 z 0 false) in
  if PrimFloat.is_infinity f then Raise OverflowError else Ok f.

(** [int(f)] for a [float]: truncation towards zero. *)
Definition Z_of_float (f : PrimFloat.float) : result Z :=
  match Prim2SF f with
  | S754_zero _ => Ok 0
  | S754_infinity _ => Raise OverflowError
  | S754_nan => Raise ValueError
  | S754_finite s m e =>
      let a := Z.shiftl (Z.pos m) e in
      Ok (if s then - a else a)
  end.

(** The text conversions of the interpreter are not part of the program:
    parsing a [str] as a [float] or as an [int] ([None] stands for
    [ValueError]) and the [repr] of an object. *)
Class Builtins : Type := {
  float_of_string : string → option PrimFloat.float;
  int_of_string : string → option Z;
  repr : value → string;
}.

Section Conversions.
Context `{!Builtins}.

(** [float(v)] *)
Definition py_float (v : value) : result PrimFloat.float :=
  match v with
  | VInt z => float_of_Z z
  | VBool b => float_of_Z (Z.b2z b)
  | VFloat f => Ok f
  | VStr s => from_option Ok (Raise ValueError) (float_of_string s)
  | VNull | VList _ | VDict _ => Raise TypeError
  end.

(** [int(v)] *)
Definition py_int (v : value) : result Z :=
  match v with
  | VInt z => Ok z
  | VBool b => Ok (Z.b2z b)
  | VFloat f => Z_of_float f
  | VStr s => from_option Ok (Raise ValueError) (int_of_string s)
  | VNull | VList _ | VDict _ => Raise TypeError
  end.

(** [str(v)]: a [str] is returned as it is, any other of these objects
    prints as its [repr]. *)
Definition py_str (v : value) : string :=
  match v with
  | VStr s => s
  | _ => repr v
  end.
End Conversions.

(** [s.lower()] on the UTF-8 text of a [str].  Only the letters A-Z are
    changed.  Python lower-cases letters outside ASCII too, and two of them
    give an ASCII letter: the Kelvin sign gives k, and the dotted capital I
    gives i followed by a combining dot.  The program only searches the
    result for the words energy, calorie, protein, carbohydrate, fiber, fat
    and saturated, which have no k and no i at their end, so neither letter
    can complete one of them and every test on the name is the same. *)
Definition lower_ascii (c : ascii) : ascii :=
  let n := N_of_ascii c in
  if ((65 <=? n) && (n <=? 90))%N then ascii_of_N (n + 32) else c.

Fixpoint lower (s : string) : string :=
  match s with
  | EmptyString => EmptyString
  | String c s' => String (lower_ascii c) (lower s')
  end.

(** [sub in s] for two [str]. *)
Fixpoint contains (sub s : string) : bool :=
  if String.prefix sub s then true
  else match s with
       | EmptyString => false
       | String _ s' => contains sub s'
       end.

(** ** Response models *)

Module FoodItem.
Record t : Type := mk { fdcId : Z; description : string }.
End FoodItem.

Module SearchResponse.
Record t : Type := mk {
  foods : list FoodItem.t;
  totalHits : Z;
  pageNumber : Z;
  totalPages : Z;
}.
End SearchResponse.

Module Nutrients.
Record t : Type := mk {
  calories : option PrimFloat.float;
  protein : option PrimFloat.float;
  fat : option PrimFloat.float;
  carbs : option PrimFloat.float;
  fiber : option PrimFloat.float;
}.
End Nutrients.

Module FoodDetails.
Record t : Type := mk {
  fdcId : Z;
  description : string;
  nutrients : Nutrients.t;
}.
End FoodDetails.

(** ** Utilities *)

Definition SEARCH_URL : string := "https://api.nal.usda.gov/fdc/v1/foods/search".
(** [DETAIL_URL_TMPL.format(fdc_id=...)], given the text of the identifier. *)
Definition DETAIL_URL_TMPL (fdc_id : string) : string :=
  "https://api.nal.usda.gov/fdc/v1/food/" +:+ fdc_id.

Definition KEY_NUTRIENT_IDS : gmap Z string :=
  list_to_map
    [ (208, "calories");
      (203, "protein");
      (204, "fat");
      (205, "carbs");
      (291, "fiber") ].

(** [_ensure_api_key]: [API_KEY] is what [os.getenv] returned, [None] or a
    string; [not API_KEY] holds for [None] and for the empty string. *)
Definition api_key_missing (API_KEY : option string) : bool :=
  match API_KEY with
  | None => true
  | Some k => Nat.eqb (String.length k) 0
  end.

Definition _ensure_api_key (API_KEY : option string) : result unit :=
  if api_key_missing API_KEY then
    Raise (HTTPException 500
             "Server misconfigured: USDA_API_KEY missing. Add it to .env")
  else Ok tt.

Section Normalizer.
Context `{!Builtins}.

(** The fallback chain
    [it.get("description") or it.get("lowercaseDescription") or "Unknown item"]. *)
Definition item_description (it : value) : result value :=
  d ← py_get it "description";
  l ← py_get it "lowercaseDescription";
  Ok (py_or (py_or d l) (VStr "Unknown item")).

(** One turn of the loop of [_simplify_foods].  [isinstance(fdc_id, int)]
    holds exactly when [int_value fdc_id] is defined, and the integer is
    what the [FoodItem] then stores. *)
Definition simplify_step (simplified : list FoodItem.t) (it : value)
  : result (list FoodItem.t) :=
  fdc_id ← py_get it "fdcId";
  desc ← item_description it;
  match int_value fdc_id with
  | Some z => Ok (simplified ++ [FoodItem.mk z (py_str desc)])
  | None => Ok simplified
  end.

Definition _simplify_foods (items : value) : result (list FoodItem.t) :=
  its ← py_iter (py_or items (VList []));
  for_each simplify_step [] its.
End Normalizer.

Section Extractor.
Context `{!Builtins}.

(** The dictionary [found] as first bound in [_extract_key_nutrients]. *)
Definition found_init : gmap string (option PrimFloat.float) :=
  list_to_map
    [ ("calories", None);
      ("protein", None);
      ("fat", None);
      ("carbs", None);
      ("fiber", None) ].

(** [found[kind] = float(amount)] *)
Definition assign (found : gmap string (option PrimFloat.float))
    (kind : string) (amount : value)
  : result (gmap string (option PrimFloat.float)) :=
  f ← py_float amount;
  Ok (<[kind := Some f]> found).

(** [v.lower()]: a method of [str] only. *)
Definition py_lower (v : value) : result string :=
  match v with
  | VStr s => Ok (lower s)
  | _ => Raise AttributeError
  end.

(** One turn of the loop of [_extract_key_nutrients]; [continue] returns
    [found] as it is. *)
Definition extract_step (found : gmap string (option PrimFloat.float))
    (n : value) : result (gmap string (option PrimFloat.float)) :=
  nutrient ← py_get n "nutrient";
  let nut := py_or nutrient (VDict ∅) in
  amount ← py_get n "amount";
  if is_None amount then Ok found
  else
    nid ← py_get nut "id";
    match int_value nid ≫= (KEY_NUTRIENT_IDS !!.) with
    | Some kind => assign found kind amount
    | None =>
      nested ← py_get nut "name";
      flat ← py_get n "nutrientName";
      name ← py_lower (py_or (py_or nested flat) (VStr ""));
      if Nat.eqb (String.length name) 0 then Ok found
      else if contains "energy" name || contains "calorie" name then
        assign found "calories" amount
      else if contains "protein" name then
        assign found "protein" amount
      else if contains "carbohydrate" name then
        assign found "carbs" amount
      else if contains "fiber" name then
        assign found "fiber" amount
      else if contains "fat" name && negb (contains "saturated" name) then
        assign found "fat" amount
      else Ok found
    end.

(** The [Nutrients] model built from the entries of [found], keyword by
    keyword. *)
Definition Nutrients_of (found : gmap string (option PrimFloat.float))
  : Nutrients.t :=
  Nutrients.mk
    (default None (found !! "calories"))
    (default None (found !! "protein"))
    (default None (found !! "fat"))
    (default None (found !! "carbs"))
    (default None (found !! "fiber")).

(** The loop of [_extract_key_nutrients], up to the final [found]. *)
Definition extract_found (food_json : value)
  : result (gmap string (option PrimFloat.float)) :=
  raw ← py_get_default food_json "foodNutrients" (VList []);
  ns ← py_iter (py_or raw (VList []));
  for_each extract_step found_init ns.

Definition _extract_key_nutrients (food_json : value) : result Nutrients.t :=
  found ← extract_found food_json;
  Ok (Nutrients_of found).
End Extractor.

(** ** Endpoints *)

(** An outbound [requests.get(url, params=..., timeout=...)]. *)
Record request : Type := {
  url : string;
  params : list (string * value);
  timeout : Z;
}.

(** What the handlers read of a [requests.Response]: the status code and
    the outcome of [resp.json()], [None] when it raises because the body is
    not a JSON document (an empty body is not one). *)
Record response : Type := {
  status_code : Z;
  json : option value;
}.

(** [resp.ok]: the status is not a client or server error. *)
Definition ok (resp : response) : bool :=
  negb ((400 <=? status_code resp) && (status_code resp <? 600)).

(** The upstream as the handlers see it: a call either raises, with the
    text of the exception, or returns a response. *)
Definition transport : Type := request → string + response.

(** [health()]: the JSON object of the health probe. *)
Definition health : value := VDict {["status" := VStr "ok"]}.

Section Endpoints.
Context `{!Builtins}.
Variable API_KEY : option string.
Variable get : transport.

(** [search_foods] from [resp.ok] on. *)
Definition search_result (page : Z) (resp : response)
  : result SearchResponse.t :=
  if negb (ok resp) then
    Raise (HTTPException (status_code resp) "USDA search failed")
  else
    parsed ← from_option Ok (Raise JSONDecodeError) (json resp);
    let data := py_or parsed (VDict ∅) in
    raw ← py_get_default data "foods" (VList []);
    foods ← _simplify_foods raw;
    hits ← py_get_default data "totalHits" (VInt 0);
    total_hits ← py_int (py_or hits (VInt 0));
    current ← py_get_default data "currentPage" (VInt page);
    current_page ← py_int (py_or current (VInt page));
    pages ← py_get_default data "totalPages" (VInt 0);
    total_pages ← py_int (py_or pages (VInt 0));
    Ok (SearchResponse.mk foods total_hits current_page total_pages).

(** [search_foods(query, page)], started with the log [calls] of the
    upstream calls made so far; returns the log afterwards too. *)
Definition search_foods (query : string) (page : Z) (calls : list request)
  : result SearchResponse.t * list request :=
  match _ensure_api_key API_KEY with
  | Raise e => (Raise e, calls)
  | Ok _ =>
    let rq :=
      {| url := SEARCH_URL;
         params := [ ("api_key", from_option VStr VNull API_KEY);
                     ("query", VStr query);
                     ("pageSize", VInt 20);
                     ("pageNumber", VInt page) ];
         timeout := 12 |} in
    match get rq with
    | inl e =>
        (Raise (HTTPException 502 ("Upstream request failed: " +:+ e)),
         calls ++ [rq])
    | inr resp => (search_result page resp, calls ++ [rq])
    end
  end.

(** [get_food_details] from the status checks on. *)
Definition details_result (fdc_id : Z) (resp : response)
  : result FoodDetails.t :=
  if status_code resp =? 404 then
    Raise (HTTPException 404 "Food not found")
  else if negb (ok resp) then
    Raise (HTTPException (status_code resp) "USDA detail failed")
  else
    parsed ← from_option Ok (Raise JSONDecodeError) (json resp);
    let data := py_or parsed (VDict ∅) in
    d ← py_get data "description";
    let description := py_or d (VStr "Unknown item") in
    nutrients ← _extract_key_nutrients data;
    reported ← py_get_default data "fdcId" (VInt fdc_id);
    id ← py_int (py_or reported (VInt fdc_id));
    Ok (FoodDetails.mk id (py_str description) nutrients).

Definition get_food_details (fdc_id : Z) (calls : list request)
  : result FoodDetails.t * list request :=
  match _ensure_api_key API_KEY with
  | Raise e => (Raise e, calls)
  | Ok _ =>
    let rq :=
      {| url := DETAIL_URL_TMPL (py_str (VInt fdc_id));
         params := [ ("api_key", from_option VStr VNull API_KEY) ];
         timeout := 12 |} in
    match get rq with
    | inl e =>
        (Raise (HTTPException 502 ("Upstream request failed: " +:+ e)),
         calls ++ [rq])
    | inr resp => (details_result fdc_id resp, calls ++ [rq])
    end
  end.
End Endpoints.

(** ** An instance of the text conversions, for running examples

    Decimal integer literals are parsed, of both kinds of number; integers,
    [None] and booleans are printed.  Floats and containers are not printed
    and other literals are not parsed: no example below depends on them. *)

Fixpoint parse_digits (s : string) (acc : Z) : option Z :=
  match s with
  | EmptyString => Some acc
  | String c s' =>
      let n := Z.of_N (N_of_ascii c) in
      if (48 <=? n) && (n <=? 57) then parse_digits s' (10 * acc + (n - 48))
      else None
  end.

Definition parse_decimal (s : string) : option Z :=
  match s with
  | EmptyString => None
  | String "-" (String c s') => Z.opp <$> parse_digits (String c s') 0
  | String "-" EmptyString => None
  | _ => parse_digits s 0
  end.

Definition print_constant (v : value) : string :=
  match v with
  | VNull => "None"
  | VBool true => "True"
  | VBool false => "False"
  | VInt z => pretty z
  | _ => ""
  end.

Definition decimal_builtins : Builtins := {|
  float_of_string s :=
    z ← parse_decimal s;
    match float_of_Z z with Ok f => Some f | Raise _ => None end;
  int_of_string := parse_decimal;
  repr := print_constant;
|}.

(** ** Notions used to state the properties *)

Section Notions.
Context `{!Builtins}.

(** The identifier of a raw search record, when its [fdcId] is an [int]. *)
Definition record_id (rec : gmap string value) : option Z :=
  rec !! "fdcId" ≫= int_value.

(** What one raw record adds to the output of [_simplify_foods]. *)
Definition record_items (rec : gmap string value) : list FoodItem.t :=
  match record_id rec with
  | Some z =>
      [FoodItem.mk z
         (py_str (py_or (py_or (default VNull (rec !! "description"))
                               (default VNull (rec !! "lowercaseDescription")))
                        (VStr "Unknown item")))]
  | None => []
  end.

(** An output entry [x] stems from the raw record [rec]. *)
Definition stems_from (x : FoodItem.t) (rec : gmap string value) : Prop :=
  record_id rec = Some (FoodItem.fdcId x) ∧
  ∃ d, item_description (VDict rec) = Ok d ∧ FoodItem.description x = py_str d.

(** The name rules of the Extractor in their order of priority: a test on
    the lower-cased name and the kind it selects. *)
Definition name_rules : list ((string → bool) * string) :=
  [ (λ name, contains "energy" name || contains "calorie" name, "calories");
    (λ name, contains "protein" name, "protein");
    (λ name, contains "carbohydrate" name, "carbs");
    (λ name, contains "fiber" name, "fiber");
    (λ name, contains "fat" name && negb (contains "saturated" name), "fat") ].

(** The kind of the first rule that [name] satisfies. *)
Definition first_match (name : string) : option string :=
  snd <$> List.find (λ rule, rule.1 name) name_rules.

(** The parts of a nutrient entry the Extractor reads: its amount, its
    nested nutrient object (an absent or falsy one reads as empty), the
    kind its nested identifier selects in the table, and its lower-cased
    name, the nested one before the legacy flat one. *)
Definition entry_amount (e : gmap string value) : value :=
  default VNull (e !! "amount").

Definition entry_nutrient (e : gmap string value) : option (gmap string value) :=
  match py_or (default VNull (e !! "nutrient")) (VDict ∅) with
  | VDict nut => Some nut
  | _ => None
  end.

Definition id_kind (nut : gmap string value) : option string :=
  (nut !! "id" ≫= int_value) ≫= (KEY_NUTRIENT_IDS !!.).

Definition entry_name (e nut : gmap string value) : option string :=
  match py_or (py_or (default VNull (nut !! "name"))
                     (default VNull (e !! "nutrientName"))) (VStr "") with
  | VStr s => Some (lower s)
  | _ => None
  end.

(** The kind a nutrient entry matches, by identifier first and by name
    otherwise; [None] when it matches no kind, has no amount or is not of
    the expected shape. *)
Definition matched_kind (n : value) : option string :=
  match n with
  | VDict e =>
      if is_None (entry_amount e) then None
      else
        nut ← entry_nutrient e;
        match id_kind nut with
        | Some kind => Some kind
        | None => entry_name e nut ≫= first_match
        end
  | _ => None
  end.

Definition amount_of (n : value) : value :=
  match n with
  | VDict e => entry_amount e
  | _ => VNull
  end.

(** [field] is the coerced amount of the last entry of [ns] that matches
    [kind], and is empty when no entry does. *)
Definition holds_last_match (kind : string) (ns : list value)
    (field : option PrimFloat.float) : Prop :=
  match last (filter (λ n, matched_kind n = Some kind) ns) with
  | Some n => ∃ f, py_float (amount_of n) = Ok f ∧ field = Some f
  | None => field = None
  end.

(** The exceptions that are HTTP error responses. *)
Definition is_HTTPException (e : exn) : bool :=
  match e with
  | HTTPException _ _ => true
  | _ => false
  end.
End Notions.

(** [v] is a [dict], the only kind of object the loops can read with [get]. *)
Definition is_mapping (v : value) : bool :=
  match v with
  | VDict _ => true
  | _ => false
  end.

(** The keys of [found], that is the fields of [Nutrients]. *)
Definition nutrient_kinds : list string :=
  ["calories"; "protein"; "fat"; "carbs"; "fiber"].

(** The field of a [Nutrients] model that holds the value of [kind]. *)
Definition nutrient_field (r : Nutrients.t) (kind : string)
  : option PrimFloat.float :=
  if decide (kind = "calories") then Nutrients.calories r
  else if decide (kind = "protein") then Nutrients.protein r
  else if decide (kind = "fat") then Nutrients.fat r
  else if decide (kind = "carbs") then Nutrients.carbs r
  else if decide (kind = "fiber") then Nutrients.fiber r
  else None.

(** The request [search_foods] sends, and the one [get_food_details] sends. *)
Definition search_request (key query : string) (page : Z) : request :=
  {| url := SEARCH_URL;
     params := [ ("api_key", VStr key); ("query", VStr query);
                 ("pageSize", VInt 20); ("pageNumber", VInt page) ];
     timeout := 12 |}.

Definition details_request `{!Builtins} (key : string) (fdc_id : Z) : request :=
  {| url := DETAIL_URL_TMPL (py_str (VInt fdc_id));
     params := [ ("api_key", VStr key) ];
     timeout := 12 |}.

(** ** The Food Summary Normalizer *)

Lemma for_each_app {A S : Type} (body : S → A → result S) (s : S) (xs ys : list A) :
  for_each body s (xs ++ ys) = (s' ← for_each body s xs; for_each body s' ys).
Proof.
  revert s. induction xs as [|x xs IH]; intros s; simpl; [done|].
  destruct (body s x) as [s'|e]; simpl; [apply IH | done].
Qed.

Lemma py_or_falsy (v w : value) : truthy v = false → py_or v w = w.
Proof. unfold py_or. by intros ->. Qed.

Lemma py_or_truthy (v w : value) : truthy v = true → py_or v w = v.
Proof. unfold py_or. by intros ->. Qed.

Lemma py_iter_list (l : list value) : py_iter (py_or (VList l) (VList [])) = Ok l.
Proof. by destruct l. Qed.

Lemma int_value_default (rec : gmap string value) (k : string) :
  int_value (default VNull (rec !! k)) = rec !! k ≫= int_value.
Proof. by destruct (rec !! k). Qed.

Section NormalizerFacts.
Context `{!Builtins}.

Lemma simplify_step_record (acc : list FoodItem.t) (rec : gmap string value) :
  simplify_step acc (VDict rec) = Ok (acc ++ record_items rec).
Proof.
  unfold simplify_step, record_items, record_id, item_description; simpl.
  rewrite int_value_default.
  destruct (rec !! "fdcId" ≫= int_value); [done|].
  by rewrite app_nil_r.
Qed.

Lemma simplify_loop (acc : list FoodItem.t) (recs : list (gmap string value)) :
  for_each simplify_step acc (VDict <$> recs) = Ok (acc ++ (recs ≫= record_items)).
Proof.
  revert acc. induction recs as [|rec recs IH]; intros acc.
  - simpl. by rewrite app_nil_r.
  - rewrite fmap_cons. cbn [for_each]. rewrite simplify_step_record.
    change (for_each simplify_step (acc ++ record_items rec) (VDict <$> recs)
            = Ok (acc ++ (record_items rec ++ (recs ≫= record_items)))).
    rewrite IH. by rewrite app_assoc.
Qed.

Lemma simplify_foods_records (recs : list (gmap string value)) :
  _simplify_foods (VList (VDict <$> recs)) = Ok (recs ≫= record_items).
Proof.
  unfold _simplify_foods. rewrite py_iter_list. simpl.
  apply (simplify_loop []).
Qed.

Lemma record_items_stems (rec : gmap string value) (x : FoodItem.t) :
  x ∈ record_items rec → stems_from x rec.
Proof.
  unfold record_items, stems_from. intros Hx.
  destruct (record_id rec) as [z|] eqn:Hid; [|by apply elem_of_nil in Hx].
  apply list_elem_of_singleton in Hx. subst x. simpl. split; [done|].
  eexists. split; [reflexivity|done].
Qed.


Lemma record_items_filter (recs : list (gmap string value)) :
  Forall2 stems_from (recs ≫= record_items)
          (filter (λ rec, is_Some (record_id rec)) recs).
Proof.
  induction recs as [|rec recs IH]; [constructor|].
  rewrite bind_cons, filter_cons.
  destruct (decide (is_Some (record_id rec))) as [[z Hz]|Hno].
  - assert (Hone : ∃ x, record_items rec = [x]).
    { unfold record_items. rewrite Hz. eauto. }
    destruct Hone as [x Hx]. rewrite Hx. simpl. constructor; [|done].
    apply record_items_stems. rewrite Hx. apply list_elem_of_here.
  - assert (Hnone : record_items rec = []).
    { unfold record_items. destruct (record_id rec); [|done].
      exfalso. apply Hno. eauto. }
    by rewrite Hnone.
Qed.

Lemma record_items_length (recs : list (gmap string value)) :
  (length (recs ≫= record_items) ≤ length recs)%nat.
Proof.
  induction recs as [|rec recs IH]; [done|].
  rewrite bind_cons, length_app. simpl.
  assert (length (record_items rec) ≤ 1)%nat; [|lia].
  unfold record_items. destruct (record_id rec); simpl; lia.
Qed.
End NormalizerFacts.

Section NormalizerClaims.
Context `{!Builtins}.


(** C8: the output of [_simplify_foods] follows the input order, without
    sorting and without removing duplicates: its entries stem, one by one
    and in order, from the records that have an integer id, which form a
    subsequence of the input; it is no longer than the input; and the id of
    every entry is the integer id of an input record. *)
Theorem simplify_foods_order (recs : list (gmap string value)) :
  ∃ out,
    _simplify_foods (VList (VDict <$> recs)) = Ok out ∧
    Forall2 stems_from out (filter (λ rec, is_Some (record_id rec)) recs) ∧
    filter (λ rec, is_Some (record_id rec)) recs `sublist_of` recs ∧
    (length out ≤ length recs)%nat ∧
    (∀ x, x ∈ out → ∃ rec, rec ∈ recs ∧ record_id rec = Some (FoodItem.fdcId x)).
Proof.
  exists (recs ≫= record_items). split; [apply simplify_foods_records|].
  split; [apply record_items_filter|].
  split; [apply sublist_filter|].
  split; [apply record_items_length|].
  intros x Hx. apply list_elem_of_bind in Hx as (rec & Hx & Hrec).
  apply record_items_stems in Hx as [Hid _]. by exists rec.
Qed.

End NormalizerClaims.



(** ** The Nutrient Extractor *)

Lemma py_or_dict (d : gmap string value) : py_or (VDict d) (VDict ∅) = VDict d.
Proof.
  unfold py_or. simpl. destruct (Nat.eqb_spec (size d) 0) as [Hz|]; [|done].
  simpl. f_equal. symmetry. by apply map_size_empty_inv.
Qed.

Lemma key_nutrient_table (z : Z) (kind : string) :
  KEY_NUTRIENT_IDS !! z = Some kind ↔
  (z, kind) ∈ [ (208, "calories"); (203, "protein"); (204, "fat");
                (205, "carbs"); (291, "fiber") ].
Proof.
  unfold KEY_NUTRIENT_IDS. symmetry. apply elem_of_list_to_map.
  simpl. apply (bool_decide_unpack _). by vm_compute.
Qed.

Lemma for_each_raises {A S : Type} (body : S → A → result S) (x : A) (xs : list A) :
  (∀ s, ∃ e, body s x = Raise e) →
  x ∈ xs →
  ∀ s, ∃ e, for_each body s xs = Raise e.
Proof.
  intros Hx Hin. induction xs as [|y xs IH]; [by apply elem_of_nil in Hin|].
  intros s. simpl. apply elem_of_cons in Hin as [<-|Hin].
  - destruct (Hx s) as [e ->]. by exists e.
  - destruct (body s y) as [s'|e]; simpl; [by apply IH | by exists e].
Qed.

Lemma for_each_raise_from {A S : Type} (body : S → A → result S)
    (P : exn → Prop) (xs : list A) :
  (∀ s x e, body s x = Raise e → P e) →
  ∀ s e, for_each body s xs = Raise e → P e.
Proof.
  intros Hbody. induction xs as [|x xs IH]; intros s e; simpl; [done|].
  destruct (body s x) as [s'|e'] eqn:Hstep; simpl.
  - apply IH.
  - intros [= <-]. by eapply Hbody.
Qed.

Section ExtractorFacts.
Context `{!Builtins}.

Lemma py_float_raise (v : value) (e : exn) :
  py_float v = Raise e → is_HTTPException e = false.
Proof.
  destruct v; simpl; try (by intros [= <-]).
  - unfold float_of_Z. case (is_infinity _); by intros [= <-].
  - unfold float_of_Z. case (is_infinity _); by intros [= <-].
  - destruct (float_of_string s); simpl; by intros [= <-].
Qed.

(** The chain of tests on a name selects the first rule that matches. *)
Lemma name_chain (found : gmap string (option PrimFloat.float))
    (amount : value) (name : string) :
  (if Nat.eqb (String.length name) 0 then Ok found
   else if contains "energy" name || contains "calorie" name then
     assign found "calories" amount
   else if contains "protein" name then assign found "protein" amount
   else if contains "carbohydrate" name then assign found "carbs" amount
   else if contains "fiber" name then assign found "fiber" amount
   else if contains "fat" name && negb (contains "saturated" name) then
     assign found "fat" amount
   else Ok found)
  = match first_match name with
    | Some kind => assign found kind amount
    | None => Ok found
    end.
Proof.
  destruct name as [|c name]; [reflexivity|].
  change (Nat.eqb (String.length (String c name)) 0) with false.
  generalize (String c name). intros nm.
  unfold first_match, name_rules. cbn [List.find fst snd].
  destruct (contains "energy" nm || contains "calorie" nm); [done|].
  destruct (contains "protein" nm); [done|].
  destruct (contains "carbohydrate" nm); [done|].
  destruct (contains "fiber" nm); [done|].
  by destruct (contains "fat" nm && negb (contains "saturated" nm)).
Qed.

(** The step on an entry of the expected shape, by the parts it reads. *)
Lemma extract_step_shape (found : gmap string (option PrimFloat.float))
    (e nut : gmap string value) :
  is_None (entry_amount e) = false →
  entry_nutrient e = Some nut →
  extract_step found (VDict e) =
    match id_kind nut with
    | Some kind => assign found kind (entry_amount e)
    | None =>
        name ← py_lower (py_or (py_or (default VNull (nut !! "name"))
                                      (default VNull (e !! "nutrientName")))
                               (VStr ""));
        match first_match name with
        | Some kind => assign found kind (entry_amount e)
        | None => Ok found
        end
    end.
Proof.
  unfold entry_amount, entry_nutrient, id_kind. intros Hamount Hnut.
  unfold extract_step. simpl.
  destruct (py_or (default VNull (e !! "nutrient")) (VDict ∅)) as [| | | | | |d];
    try discriminate Hnut.
  injection Hnut as ->. rewrite Hamount. simpl.
  rewrite int_value_default.
  destruct ((nut !! "id" ≫= int_value) ≫= (KEY_NUTRIENT_IDS !!.)); [done|].
  destruct (py_lower _) as [name|err]; simpl; [|done].
  apply name_chain.
Qed.

Lemma extract_step_matched (found : gmap string (option PrimFloat.float))
    (n : value) (kind : string) :
  matched_kind n = Some kind →
  extract_step found n = assign found kind (amount_of n).
Proof.
  destruct n as [| | | | | |e]; try done. simpl.
  destruct (is_None (entry_amount e)) eqn:Hamount; [done|].
  destruct (entry_nutrient e) as [nut|] eqn:Hnut; [|done]. simpl.
  rewrite (extract_step_shape found e nut Hamount Hnut).
  destruct (id_kind nut) as [k|]; [by intros [= ->]|].
  unfold entry_name.
  destruct (py_or (py_or _ _) _); try done. simpl.
  by intros ->.
Qed.

Lemma extract_step_unmatched (found : gmap string (option PrimFloat.float))
    (n : value) :
  matched_kind n = None →
  extract_step found n = Ok found ∨ extract_step found n = Raise AttributeError.
Proof.
  destruct n as [| | | | | |e]; try (by right). simpl.
  destruct (is_None (entry_amount e)) eqn:Hamount.
  { intros _. left. unfold extract_step. simpl.
    unfold entry_amount in Hamount. by rewrite Hamount. }
  destruct (entry_nutrient e) as [nut|] eqn:Hnut; simpl.
  - rewrite (extract_step_shape found e nut Hamount Hnut).
    destruct (id_kind nut) as [k|]; [done|].
    unfold entry_name.
    destruct (py_or (py_or _ _) _); simpl; try (by right).
    intros ->. by left.
  - intros _. right. unfold extract_step, entry_nutrient, entry_amount in *.
    simpl. rewrite Hamount.
    by destruct (py_or (default VNull (e !! "nutrient")) (VDict ∅)).
Qed.

Lemma extract_step_raise (found : gmap string (option PrimFloat.float))
    (n : value) (e : exn) :
  extract_step found n = Raise e → is_HTTPException e = false.
Proof.
  destruct (matched_kind n) as [kind|] eqn:Hkind.
  - rewrite (extract_step_matched _ _ _ Hkind). unfold assign.
    destruct (py_float (amount_of n)) eqn:Hf; simpl; [done|].
    intros [= <-]. by eapply py_float_raise.
  - destruct (extract_step_unmatched found n Hkind) as [-> | ->]; [done|].
    by intros [= <-].
Qed.

(** After the loop each kind holds the amount of the last entry that
    matched it, or what it held before the loop. *)
Lemma extract_loop_last (found0 found : gmap string (option PrimFloat.float))
    (ns : list value) (kind : string) :
  for_each extract_step found0 ns = Ok found →
  match last (filter (λ n, matched_kind n = Some kind) ns) with
  | Some n => ∃ f, py_float (amount_of n) = Ok f ∧ found !! kind = Some (Some f)
  | None => found !! kind = found0 !! kind
  end.
Proof.
  revert found. induction ns as [|n ns IH] using rev_ind; intros found.
  { simpl. by intros [= ->]. }
  rewrite for_each_app.
  destruct (for_each extract_step found0 ns) as [found1|] eqn:Hloop; [|done].
  specialize (IH found1 eq_refl). simpl.
  destruct (extract_step found1 n) as [found2|] eqn:Hstep; [|done]. simpl.
  intros [= ->]. rewrite filter_app, filter_cons, filter_nil.
  destruct (matched_kind n) as [k|] eqn:Hkind.
  - rewrite (extract_step_matched _ _ _ Hkind) in Hstep. unfold assign in Hstep.
    destruct (py_float (amount_of n)) as [f|] eqn:Hf; [|done].
    simpl in Hstep. injection Hstep as <-.
    destruct (decide (Some k = Some kind)) as [[= ->]|Hne].
    + rewrite last_snoc. exists f. by rewrite lookup_insert_eq.
    + rewrite app_nil_r, lookup_insert_ne by congruence. apply IH.
  - destruct (extract_step_unmatched found1 n Hkind) as [Hsame|Hraise];
      [|congruence].
    rewrite Hstep in Hsame. injection Hsame as ->.
    destruct (decide (None = Some kind)); [done|].
    rewrite app_nil_r. apply IH.
Qed.
End ExtractorFacts.

Section ExtractorClaims.
Context `{!Builtins}.

(** The loop step on an entry with an amount whose nested identifier is in
    the table: the coerced amount is assigned to the kind of the table,
    whatever the nested name and the legacy flat name are. *)
Lemma extract_step_id_match (found : gmap string (option PrimFloat.float))
    (n nut : gmap string value) (a : value) (z : Z) (kind : string) :
  n !! "amount" = Some a →
  a ≠ VNull →
  n !! "nutrient" = Some (VDict nut) →
  nut !! "id" = Some (VInt z) →
  (z, kind) ∈ [ (208, "calories"); (203, "protein"); (204, "fat");
                (205, "carbs"); (291, "fiber") ] →
  extract_step found (VDict n) = (f ← py_float a; Ok (<[kind := Some f]> found)) ∧
  ∀ name flat : value,
    extract_step found
      (VDict (<["nutrientName" := flat]>
                (<["nutrient" := VDict (<["name" := name]> nut)]> n)))
    = (f ← py_float a; Ok (<[kind := Some f]> found)).
Proof.
  intros Hamount Hnull Hnut Hid Htable.
  apply key_nutrient_table in Htable.
  assert (Hcore : ∀ n' nut' : gmap string value,
            n' !! "amount" = Some a →
            n' !! "nutrient" = Some (VDict nut') →
            nut' !! "id" = Some (VInt z) →
            extract_step found (VDict n') = assign found kind a).
  { intros n' nut' Ha Hn Hi.
    rewrite (extract_step_shape found n' nut').
    - unfold id_kind, entry_amount. rewrite Hi, Ha. simpl. by rewrite Htable.
    - unfold entry_amount. rewrite Ha. by destruct a.
    - unfold entry_nutrient. rewrite Hn. simpl. by rewrite py_or_dict. }
  split; [by apply (Hcore n nut)|].
  intros name flat. apply (Hcore _ (<["name" := name]> nut)).
  - by rewrite !lookup_insert_ne.
  - by rewrite lookup_insert_ne, lookup_insert_eq.
  - by rewrite lookup_insert_ne.
Qed.

(** The loop step on an entry with an amount that no identifier of the
    table selects: the coerced amount is assigned to the kind of the first
    name rule that the lower-cased name satisfies. *)
Lemma extract_step_name_match (found : gmap string (option PrimFloat.float))
    (n nut : gmap string value) (a : value) (s : string) :
  n !! "amount" = Some a →
  a ≠ VNull →
  entry_nutrient n = Some nut →
  id_kind nut = None →
  py_or (py_or (default VNull (nut !! "name"))
               (default VNull (n !! "nutrientName"))) (VStr "") = VStr s →
  extract_step found (VDict n) =
    match first_match (lower s) with
    | Some kind => f ← py_float a; Ok (<[kind := Some f]> found)
    | None => Ok found
    end ∧
  (contains "fat" (lower s) = true →
   contains "saturated" (lower s) = true →
   first_match (lower s) ≠ Some "fat" ∧
   ∀ found', extract_step found (VDict n) = Ok found' →
             found' !! "fat" = found !! "fat").
Proof.
  intros Hamount Hnull Hnut Hid Hname.
  assert (Hstep : extract_step found (VDict n) =
            match first_match (lower s) with
            | Some kind => assign found kind a
            | None => Ok found
            end).
  { rewrite (extract_step_shape found n nut).
    - rewrite Hid, Hname. unfold entry_amount. by rewrite Hamount.
    - unfold entry_amount. rewrite Hamount. by destruct a.
    - done. }
  split; [exact Hstep|].
  intros Hfat Hsat.
  assert (Hkind : first_match (lower s) ≠ Some "fat").
  { unfold first_match, name_rules. cbn [List.find fst snd].
    rewrite Hfat, Hsat. simpl.
    destruct (contains "energy" (lower s) || contains "calorie" (lower s)); [done|].
    destruct (contains "protein" (lower s)); [done|].
    destruct (contains "carbohydrate" (lower s)); [done|].
    by destruct (contains "fiber" (lower s)). }
  split; [exact Hkind|].
  intros found'. rewrite Hstep.
  destruct (first_match (lower s)) as [kind|]; [|by intros [= ->]].
  unfold assign. destruct (py_float a) as [f|]; simpl; [|done].
  intros [= <-]. apply lookup_insert_ne. congruence.
Qed.

(** C5: when the extraction of a food record returns, each of the five
    kinds of the result holds the coerced amount of the last entry, in
    input order, that matched the kind, and nothing when no entry matched
    it; amounts of several entries of one kind are not added up. *)
Theorem last_match_wins (food : gmap string value) (ns : list value)
    (r : Nutrients.t) :
  food !! "foodNutrients" = Some (VList ns) →
  _extract_key_nutrients (VDict food) = Ok r →
  holds_last_match "calories" ns (Nutrients.calories r) ∧
  holds_last_match "protein" ns (Nutrients.protein r) ∧
  holds_last_match "fat" ns (Nutrients.fat r) ∧
  holds_last_match "carbs" ns (Nutrients.carbs r) ∧
  holds_last_match "fiber" ns (Nutrients.fiber r).
Proof.
  intros Hfood. unfold _extract_key_nutrients, extract_found. simpl.
  rewrite Hfood. simpl. rewrite py_iter_list. simpl.
  destruct (for_each extract_step found_init ns) as [found|] eqn:Hloop; [|done].
  simpl. intros [= <-]. simpl.
  assert (Hkind : ∀ kind, found_init !! kind = Some None →
            holds_last_match kind ns (default None (found !! kind))).
  { intros kind Hinit. unfold holds_last_match.
    pose proof (extract_loop_last found_init found ns kind Hloop) as Hlast.
    destruct (last _) as [n|].
    - destruct Hlast as (f & Hf & ->). by exists f.
    - by rewrite Hlast, Hinit. }
  repeat split; by apply Hkind.
Qed.
End ExtractorClaims.

(** Two entries for the calories, 100 by identifier and then 50 by name: the
    result holds 50, not 100 and not 150. *)
Lemma last_match_wins_witness :
  @holds_last_match decimal_builtins "calories"
    [ VDict (<["nutrient" := VDict {["id" := VInt 208]}]> {["amount" := VInt 100]});
      VDict (<["nutrientName" := VStr "Energy"]> {["amount" := VInt 50]}) ]
    (Some 50%float).
Proof.
  exact (proj1 (@last_match_wins decimal_builtins
    {["foodNutrients" := VList
        [ VDict (<["nutrient" := VDict {["id" := VInt 208]}]> {["amount" := VInt 100]});
          VDict (<["nutrientName" := VStr "Energy"]> {["amount" := VInt 50]}) ]]}
    _
    (Nutrients.mk (Some 50%float) None None None None)
    eq_refl ltac:(vm_compute; reflexivity))).
Defined.

(** ** The request handlers *)

Lemma ok_not_404 (resp : response) : ok resp = true → (status_code resp =? 404) = false.
Proof.
  unfold ok. intros Hok. apply Z.eqb_neq. intros Heq. rewrite Heq in Hok.
  discriminate Hok.
Qed.

Lemma py_or_same (v : value) : py_or v v = v.
Proof. unfold py_or. by destruct (truthy v). Qed.

Section HandlerClaims.
Context `{!Builtins}.


(** C7: while the API credential is absent (unset, or set to the empty
    string), the search handler and the detail handler raise an HTTP error
    of status 500 whose message starts with "Server misconfigured", and the
    log of upstream calls is the one they started with: no call is made. *)
Theorem missing_key_fails_before_any_call (API_KEY : option string)
    (get : transport) (query : string) (page fdc_id : Z)
    (calls : list request) :
  API_KEY = None ∨ API_KEY = Some "" →
  ∃ detail,
    String.prefix "Server misconfigured" detail = true ∧
    search_foods API_KEY get query page calls
      = (Raise (HTTPException 500 detail), calls) ∧
    get_food_details API_KEY get fdc_id calls
      = (Raise (HTTPException 500 detail), calls).
Proof.
  intros Hkey. eexists. split; [|split].
  - shelve.
  - destruct Hkey as [-> | ->]; reflexivity.
  - destruct Hkey as [-> | ->]; reflexivity.
  Unshelve. reflexivity.
Qed.

(** What the handlers make of a successful response whose body parses to a
    falsy JSON value. *)
Lemma falsy_body_results (resp : response) (v : value)
    (page fdc_id : Z) :
  ok resp = true →
  json resp = Some v →
  truthy v = false →
  search_result page resp = Ok (SearchResponse.mk [] 0 page 0) ∧
  details_result fdc_id resp =
    Ok (FoodDetails.mk fdc_id "Unknown item"
          (Nutrients.mk None None None None None)).
Proof.
  intros Hok Hjson Hfalsy. unfold search_result, details_result.
  rewrite (ok_not_404 resp Hok), Hok, Hjson. simpl.
  rewrite (py_or_falsy v) by done. simpl.
  rewrite !lookup_empty. simpl. rewrite !py_or_same. simpl.
  split; [done|].
  unfold _extract_key_nutrients, extract_found. simpl.
  rewrite lookup_empty. done.
Qed.

(** What the search handler makes of a successful response whose
    [currentPage] is present but falsy. *)
Lemma falsy_current_page_result (resp : response)
    (data : gmap string value) (v : value) (page : Z) :
  ok resp = true →
  json resp = Some (VDict data) →
  data !! "currentPage" = Some v →
  truthy v = false →
  (∀ r, search_result page resp = Ok r → SearchResponse.pageNumber r = page) ∧
  search_result page resp =
    search_result page
      {| status_code := status_code resp;
         json := Some (VDict (delete "currentPage" data)) |}.
Proof.
  intros Hok Hjson Hcurrent Hfalsy.
  assert (Hok' : ok {| status_code := status_code resp;
                       json := Some (VDict (delete "currentPage" data)) |} = true)
    by exact Hok.
  unfold search_result. rewrite Hok, Hok', Hjson. simpl.
  rewrite !py_or_dict. simpl.
  rewrite lookup_delete_eq, !lookup_delete_ne by done.
  rewrite Hcurrent. simpl.
  rewrite (py_or_falsy v) by done. rewrite py_or_same. simpl.
  split; [|done].
  intros r.
  destruct (_simplify_foods _); simpl; [|done].
  destruct (py_int (py_or (default (VInt 0) (data !! "totalHits")) _)); simpl; [|done].
  destruct (py_int (py_or (default (VInt 0) (data !! "totalPages")) _)); simpl; [|done].
  by intros [= <-].
Qed.
End HandlerClaims.


(** No credential: both handlers fail and the log of calls stays empty. *)
Lemma missing_key_fails_before_any_call_witness :
  ∃ detail,
    String.prefix "Server misconfigured" detail = true ∧
    @search_foods decimal_builtins None (λ _, inl "unreachable") "apple" 1 []
      = (Raise (HTTPException 500 detail), []) ∧
    @get_food_details decimal_builtins None (λ _, inl "unreachable") 1001 []
      = (Raise (HTTPException 500 detail), []).
Proof.
  exact (@missing_key_fails_before_any_call decimal_builtins None
           (λ _, inl "unreachable") "apple" 1 1001 [] (or_introl eq_refl)).
Defined.

(** ** The scenarios of the specification, run on the model *)

Example extract_by_id_ignores_name :
  @_extract_key_nutrients decimal_builtins
    (VDict {["foodNutrients" := VList
       [ VDict (<["nutrient" := VDict (<["id" := VInt 208]>
                                       {["name" := VStr "Completely unrelated"]})]>
                {["amount" := VInt 250]}) ]]})
  = Ok (Nutrients.mk (Some 250%float) None None None None).
Proof. vm_compute. reflexivity. Qed.

Example extract_protein_by_name :
  @_extract_key_nutrients decimal_builtins
    (VDict {["foodNutrients" := VList
       [ VDict (<["nutrient" := VDict {["name" := VStr "Protein"]}]>
                {["amount" := VFloat 12.5%float]}) ]]})
  = Ok (Nutrients.mk None (Some 12.5%float) None None None).
Proof. vm_compute. reflexivity. Qed.

Example search_apple :
  @search_foods decimal_builtins (Some "key")
    (λ _, inr {| status_code := 200;
                 json := Some (VDict
                   (<["foods" := VList
                        [ VDict (<["fdcId" := VInt 1001]>
                                 {["description" := VStr "Apple, raw"]}) ]]>
                    (<["totalHits" := VInt 1]>
                     (<["currentPage" := VInt 1]> {["totalPages" := VInt 1]})))) |})
    "apple" 1 []
  = (Ok (SearchResponse.mk [FoodItem.mk 1001 "Apple, raw"] 1 1 1),
     [ {| url := SEARCH_URL;
          params := [ ("api_key", VStr "key"); ("query", VStr "apple");
                      ("pageSize", VInt 20); ("pageNumber", VInt 1) ];
          timeout := 12 |} ]).
Proof. vm_compute. reflexivity. Qed.

Example details_not_found :
  @get_food_details decimal_builtins (Some "key")
    (λ _, inr {| status_code := 404; json := None |}) 1001 []
  = (Raise (HTTPException 404 "Food not found"),
     [ {| url := "https://api.nal.usda.gov/fdc/v1/food/1001";
          params := [ ("api_key", VStr "key") ];
          timeout := 12 |} ]).
Proof. vm_compute. reflexivity. Qed.

Example search_upstream_unreachable :
  fst (@search_foods decimal_builtins (Some "key")
         (λ _, inl "timed out") "apple" 1 [])
  = Raise (HTTPException 502 "Upstream request failed: timed out").
Proof. vm_compute. reflexivity. Qed.

Example search_upstream_error :
  fst (@search_foods decimal_builtins (Some "key")
         (λ _, inr {| status_code := 503; json := None |}) "apple" 1 [])
  = Raise (HTTPException 503 "USDA search failed").
Proof. vm_compute. reflexivity. Qed.

(** ** Further properties of the Normalizer *)

Lemma simplify_step_non_mapping `{!Builtins} (acc : list FoodItem.t) (it : value) :
  is_mapping it = false → simplify_step acc it = Raise AttributeError.
Proof. by destruct it. Qed.

Lemma simplify_step_acc `{!Builtins} (acc : list FoodItem.t) (it : value) :
  simplify_step acc it = (o ← simplify_step [] it; Ok (acc ++ o)).
Proof.
  destruct it as [| | | | | |rec]; try done.
  by rewrite !simplify_step_record.
Qed.

Lemma simplify_loop_acc `{!Builtins} (acc : list FoodItem.t) (l : list value) :
  for_each simplify_step acc l = (o ← for_each simplify_step [] l; Ok (acc ++ o)).
Proof.
  revert acc. induction l as [|it l IH]; intros acc; simpl.
  { by rewrite app_nil_r. }
  rewrite (simplify_step_acc acc it).
  destruct (simplify_step [] it) as [o|e]; simpl; [|done].
  rewrite (IH (acc ++ o)), (IH o).
  destruct (for_each simplify_step [] l) as [o'|e]; simpl; [|done].
  by rewrite app_assoc.
Qed.

Lemma simplify_loop_non_mapping `{!Builtins} (acc : list FoodItem.t)
    (l : list value) (it : value) :
  it ∈ l → is_mapping it = false →
  for_each simplify_step acc l = Raise AttributeError.
Proof.
  intros Hin Hit. revert acc. induction l as [|x l IH]; intros acc.
  { by apply elem_of_nil in Hin. }
  simpl. destruct (is_mapping x) eqn:Hx.
  - destruct x as [| | | | | |rec]; try done.
    rewrite simplify_step_record. simpl. apply IH.
    apply elem_of_cons in Hin as [->|Hin]; [done|exact Hin].
  - by rewrite simplify_step_non_mapping.
Qed.

Lemma simplify_step_raise `{!Builtins} (acc : list FoodItem.t) (it : value) (e : exn) :
  simplify_step acc it = Raise e → e = AttributeError.
Proof.
  destruct it as [| | | | | |rec]; try (by intros [= <-]).
  by rewrite simplify_step_record.
Qed.

Lemma simplify_foods_raise `{!Builtins} (items : value) (e : exn) :
  _simplify_foods items = Raise e → is_HTTPException e = false.
Proof.
  unfold _simplify_foods.
  destruct (py_iter (py_or items (VList []))) as [its|e'] eqn:Hiter; simpl.
  - intros Hloop.
    apply (for_each_raise_from simplify_step (λ x, is_HTTPException x = false)
             its) in Hloop; [done|].
    intros s x e0 Hstep. by rewrite (simplify_step_raise _ _ _ Hstep).
  - intros [= <-].
    destruct (py_or items (VList [])); simpl in Hiter; by inversion Hiter.
Qed.

Section NormalizerFurther.
Context `{!Builtins}.

(** X1: a falsy argument of [_simplify_foods], such as [None] for a missing
    list, stands for the empty list: the result is empty and nothing is
    raised. *)
Theorem simplify_foods_falsy_input (items : value) :
  truthy items = false → _simplify_foods items = Ok [].
Proof.
  intros Hfalsy. unfold _simplify_foods. by rewrite (py_or_falsy items).
Qed.

(** X2: the tolerance of [_simplify_foods] ends at the shape of an entry: a
    list with an entry that is not a mapping gives no output at all, the call
    raises [AttributeError], whatever the other entries are. *)
Theorem simplify_foods_non_mapping_entry (l : list value) (it : value) :
  it ∈ l → is_mapping it = false →
  _simplify_foods (VList l) = Raise AttributeError.
Proof.
  intros Hin Hit. unfold _simplify_foods. rewrite py_iter_list. simpl.
  by apply (simplify_loop_non_mapping [] l it).
Qed.

(** X3: a truthy argument of [_simplify_foods] that is not a list always
    raises: [AttributeError] for a text or a mapping, whose elements are
    texts, and [TypeError] for a number or a boolean, which cannot be
    iterated. *)
Theorem simplify_foods_not_a_list (items : value) :
  truthy items = true →
  (∀ l, items ≠ VList l) →
  _simplify_foods items =
    Raise (match items with
           | VStr _ | VDict _ => AttributeError
           | _ => TypeError
           end).
Proof.
  intros Htruthy Hlist. unfold _simplify_foods.
  rewrite (py_or_truthy items) by done.
  destruct items as [|b|z|f|s|l|d]; try done.
  - destruct s as [|c s]; [done|]. reflexivity.
  - by destruct (Hlist l).
  - simpl in Htruthy. simpl.
    destruct (map_to_list d) as [|[k v] kvs] eqn:Hkvs.
    + apply map_to_list_empty_iff in Hkvs. subst d.
      by rewrite map_size_empty in Htruthy.
    + reflexivity.
Qed.

(** X4: [_simplify_foods] goes through a concatenation part by part: the
    output for [l1 ++ l2] is the output for [l1] followed by the output for
    [l2], and it raises as soon as one of the parts does. *)
Theorem simplify_foods_app (l1 l2 : list value) :
  _simplify_foods (VList (l1 ++ l2)) =
    (o1 ← _simplify_foods (VList l1);
     o2 ← _simplify_foods (VList l2);
     Ok (o1 ++ o2)).
Proof.
  unfold _simplify_foods. rewrite !py_iter_list. simpl.
  rewrite for_each_app.
  destruct (for_each simplify_step [] l1) as [o1|e]; simpl; [|done].
  apply simplify_loop_acc.
Qed.

End NormalizerFurther.

Lemma simplify_foods_falsy_input_witness :
  @_simplify_foods decimal_builtins VNull = Ok [].
Proof.
  exact (@simplify_foods_falsy_input decimal_builtins VNull eq_refl).
Defined.

Lemma simplify_foods_non_mapping_entry_witness :
  @_simplify_foods decimal_builtins
    (VList [ VDict {["fdcId" := VInt 1001]}; VStr "1002" ])
  = Raise AttributeError.
Proof.
  apply (@simplify_foods_non_mapping_entry decimal_builtins _ (VStr "1002")).
  - apply list_elem_of_further, list_elem_of_here.
  - reflexivity.
Defined.

Lemma simplify_foods_not_a_list_witness :
  @_simplify_foods decimal_builtins (VDict {["fdcId" := VInt 1001]})
  = Raise AttributeError.
Proof.
  apply (@simplify_foods_not_a_list decimal_builtins
           (VDict {["fdcId" := VInt 1001]})).
  - vm_compute. reflexivity.
  - intros l. discriminate.
Defined.


(** ** Further properties of the Extractor *)

Lemma for_each_invariant {A S : Type} (body : S → A → result S) (P : S → Prop)
    (xs : list A) :
  (∀ s x s', P s → body s x = Ok s' → P s') →
  ∀ s s', P s → for_each body s xs = Ok s' → P s'.
Proof.
  intros Hbody. induction xs as [|x xs IH]; intros s s' Hs; simpl.
  { by intros [= <-]. }
  destruct (body s x) as [s1|e] eqn:Hstep; simpl; [|done].
  apply IH. by eapply Hbody.
Qed.

Lemma prefix_append (sub s : string) :
  String.prefix sub s = true ↔ ∃ post, s = sub +:+ post.
Proof.
  revert s. induction sub as [|c sub IH]; intros s.
  { split; [intros _; by exists s | intros _; by destruct s]. }
  destruct s as [|c' s]; simpl.
  { split; [done | intros [post Hpost]; discriminate Hpost]. }
  destruct (ascii_dec c c') as [<-|Hne].
  - rewrite IH. split; intros [post Hpost]; exists post.
    + by rewrite Hpost.
    + change (String c s = String c (sub +:+ post)) in Hpost. congruence.
  - split; [done|]. intros [post Hpost].
    change (String c' s = String c (sub +:+ post)) in Hpost. congruence.
Qed.

Lemma lower_ascii_idempotent (c : ascii) : lower_ascii (lower_ascii c) = lower_ascii c.
Proof. by destruct c as [[] [] [] [] [] [] [] []]. Qed.

Lemma lower_idempotent (s : string) : lower (lower s) = lower s.
Proof.
  induction s as [|c s IH]; simpl; [done|].
  by rewrite lower_ascii_idempotent, IH.
Qed.

Lemma first_match_kinds (name kind : string) :
  first_match name = Some kind → kind ∈ nutrient_kinds.
Proof.
  unfold first_match, name_rules, nutrient_kinds. cbn [List.find fst snd].
  destruct (contains "energy" name || contains "calorie" name);
    [intros [= <-]; by apply (bool_decide_unpack _)|].
  destruct (contains "protein" name);
    [intros [= <-]; by apply (bool_decide_unpack _)|].
  destruct (contains "carbohydrate" name);
    [intros [= <-]; by apply (bool_decide_unpack _)|].
  destruct (contains "fiber" name);
    [intros [= <-]; by apply (bool_decide_unpack _)|].
  destruct (contains "fat" name && negb (contains "saturated" name));
    [intros [= <-]; by apply (bool_decide_unpack _) | done].
Qed.

Lemma matched_kind_kinds `{!Builtins} (n : value) (kind : string) :
  matched_kind n = Some kind → kind ∈ nutrient_kinds.
Proof.
  destruct n as [| | | | | |e]; try done. simpl.
  destruct (is_None (entry_amount e)); [done|].
  destruct (entry_nutrient e) as [nut|]; [|done]. simpl.
  destruct (id_kind nut) as [k|] eqn:Hid.
  - intros [= <-]. unfold id_kind in Hid.
    destruct (nut !! "id" ≫= int_value) as [z|]; [|done]. simpl in Hid.
    apply key_nutrient_table in Hid. unfold nutrient_kinds.
    repeat (apply elem_of_cons in Hid as [[= _ ->]|Hid];
            [by apply (bool_decide_unpack _)|]).
    by apply elem_of_nil in Hid.
  - destruct (entry_name e nut) as [name|]; [|done]. simpl.
    apply first_match_kinds.
Qed.

Lemma extract_step_effect `{!Builtins} (found found' : gmap string (option PrimFloat.float))
    (n : value) :
  extract_step found n = Ok found' →
  found' = found ∨
  ∃ kind f, kind ∈ nutrient_kinds ∧ matched_kind n = Some kind ∧
            py_float (amount_of n) = Ok f ∧ found' = <[kind := Some f]> found.
Proof.
  destruct (matched_kind n) as [kind|] eqn:Hkind.
  - rewrite (extract_step_matched _ _ _ Hkind). unfold assign.
    destruct (py_float (amount_of n)) as [f|] eqn:Hf; simpl; [|done].
    intros [= <-]. right. exists kind, f.
    split; [by eapply matched_kind_kinds|done].
  - destruct (extract_step_unmatched found n Hkind) as [-> | ->]; [|done].
    intros [= <-]. by left.
Qed.

Lemma found_init_keys (kind : string) :
  is_Some (found_init !! kind) ↔ kind ∈ nutrient_kinds.
Proof.
  unfold found_init, nutrient_kinds. simpl.
  rewrite !lookup_insert_is_Some, lookup_empty, is_Some_alt.
  rewrite !elem_of_cons, elem_of_nil.
  destruct (decide ("calories" = kind)); [intuition congruence|].
  destruct (decide ("protein" = kind)); [intuition congruence|].
  destruct (decide ("fat" = kind)); [intuition congruence|].
  destruct (decide ("carbs" = kind)); [intuition congruence|].
  destruct (decide ("fiber" = kind)); intuition congruence.
Qed.

Section ExtractorFurther.
Context `{!Builtins}.

(** X6: a nutrient entry that is a mapping without an amount, or with the
    amount [None], is passed over before anything else of it is examined: the
    step returns [found] unchanged and cannot raise, even when its nutrient
    field is not a mapping and its identifier is one of the table. *)
Theorem entry_without_amount_skipped
    (found : gmap string (option PrimFloat.float)) (e : gmap string value) :
  e !! "amount" = None ∨ e !! "amount" = Some VNull →
  extract_step found (VDict e) = Ok found.
Proof.
  intros Hamount. unfold extract_step. simpl.
  by destruct Hamount as [-> | ->].
Qed.

(** X7: a food record without a [foodNutrients] list, or with a falsy one,
    yields the [Nutrients] with no value at all, without an error. *)
Theorem extract_without_nutrient_list (food : gmap string value) :
  truthy (default VNull (food !! "foodNutrients")) = false →
  _extract_key_nutrients (VDict food) = Ok (Nutrients.mk None None None None None).
Proof.
  intros Hfalsy. unfold _extract_key_nutrients, extract_found. simpl.
  destruct (food !! "foodNutrients") as [v|]; simpl in *.
  - by rewrite (py_or_falsy v).
  - done.
Qed.

(** X8: one nutrient entry changes at most one key of [found], one of the
    five kinds, and sets it to the coerced amount of the entry; every other
    key keeps its value. *)
Theorem extract_step_sets_one_kind
    (found found' : gmap string (option PrimFloat.float)) (n : value) :
  extract_step found n = Ok found' →
  found' = found ∨
  ∃ kind f, kind ∈ nutrient_kinds ∧ py_float (amount_of n) = Ok f ∧
            found' !! kind = Some (Some f) ∧
            ∀ other, other ≠ kind → found' !! other = found !! other.
Proof.
  intros Hstep. apply extract_step_effect in Hstep as [->|Hset]; [by left|].
  destruct Hset as (kind & f & Hin & _ & Hf & ->). right. exists kind, f.
  split; [done|]. split; [done|]. split; [apply lookup_insert_eq|].
  intros other Hother. by apply lookup_insert_ne.
Qed.

(** X9: the loop of [_extract_key_nutrients] never adds a key to [found] and
    never removes one: when it ends, the keys of [found] are the five kinds,
    the fields of the [Nutrients] model. *)
Theorem extract_found_keys (food_json : value)
    (found : gmap string (option PrimFloat.float)) :
  extract_found food_json = Ok found →
  ∀ kind, is_Some (found !! kind) ↔ kind ∈ nutrient_kinds.
Proof.
  unfold extract_found.
  destruct (py_get_default food_json "foodNutrients" (VList [])) as [raw|];
    simpl; [|done].
  destruct (py_iter (py_or raw (VList []))) as [ns|]; simpl; [|done].
  apply (for_each_invariant extract_step
           (λ s, ∀ kind, is_Some (s !! kind) ↔ kind ∈ nutrient_kinds));
    [|apply found_init_keys].
  intros s n s' Hs Hstep kind.
  apply extract_step_effect in Hstep as [->|Hset]; [apply Hs|].
  destruct Hset as (k & f & Hin & _ & _ & ->).
  rewrite lookup_insert_is_Some. rewrite Hs.
  split; [intros [<-|[_ Hk]]; done | intros Hk].
  destruct (decide (k = kind)); [by left | by right].
Qed.

(** X10: two neighbouring entries that match different kinds, and whose
    amounts can be coerced, may be swapped: the extraction gives the same
    result.  Only the order of the entries of one kind matters. *)
Theorem different_kinds_commute (food : gmap string value)
    (before after : list value) (n1 n2 : value) (k1 k2 : string)
    (f1 f2 : PrimFloat.float) :
  matched_kind n1 = Some k1 →
  matched_kind n2 = Some k2 →
  k1 ≠ k2 →
  py_float (amount_of n1) = Ok f1 →
  py_float (amount_of n2) = Ok f2 →
  _extract_key_nutrients
    (VDict (<["foodNutrients" := VList (before ++ n1 :: n2 :: after)]> food)) =
  _extract_key_nutrients
    (VDict (<["foodNutrients" := VList (before ++ n2 :: n1 :: after)]> food)).
Proof.
  intros Hk1 Hk2 Hne Hf1 Hf2.
  unfold _extract_key_nutrients, extract_found. simpl.
  rewrite !lookup_insert_eq. simpl. rewrite !py_iter_list. simpl.
  rewrite !for_each_app.
  destruct (for_each extract_step found_init before) as [found|]; simpl; [|done].
  rewrite !(extract_step_matched _ _ _ Hk1), !(extract_step_matched _ _ _ Hk2).
  unfold assign. rewrite Hf1, Hf2. simpl.
  rewrite !(extract_step_matched _ _ _ Hk1), !(extract_step_matched _ _ _ Hk2).
  unfold assign. rewrite Hf1, Hf2. simpl.
  by rewrite (insert_insert_ne found k1 k2).
Qed.

(** X11: the name rules do not see the case of letters: writing the nested
    name of an entry in lower case changes nothing of what the step does. *)
Theorem name_case_is_ignored (found : gmap string (option PrimFloat.float))
    (n nut : gmap string value) (s : string) :
  extract_step found
    (VDict (<["nutrient" := VDict (<["name" := VStr s]> nut)]> n)) =
  extract_step found
    (VDict (<["nutrient" := VDict (<["name" := VStr (lower s)]> nut)]> n)).
Proof.
  unfold extract_step. simpl.
  rewrite !lookup_insert_eq, !lookup_insert_ne by done. simpl.
  rewrite !py_or_dict. simpl.
  rewrite !lookup_insert_eq, !lookup_insert_ne by done. simpl.
  destruct (is_None (default VNull (n !! "amount"))); [done|].
  destruct (int_value (default VNull (nut !! "id")) ≫= (KEY_NUTRIENT_IDS !!.));
    [done|].
  destruct s as [|c s]; [done|].
  change (lower (String c s)) with (String (lower_ascii c) (lower s)).
  rewrite !(py_or_truthy (VStr (String _ _))) by done. simpl.
  by rewrite lower_ascii_idempotent, lower_idempotent.
Qed.

(** X12: a nutrient entry that is not a mapping is not dropped: the whole
    extraction raises, with an exception that is not an HTTP error. *)
Theorem extract_non_mapping_entry (food : gmap string value)
    (ns : list value) (n : value) :
  food !! "foodNutrients" = Some (VList ns) →
  n ∈ ns →
  is_mapping n = false →
  ∃ e, _extract_key_nutrients (VDict food) = Raise e ∧ is_HTTPException e = false.
Proof.
  intros Hfood Hin Hn.
  assert (Hloop : ∃ e, for_each extract_step found_init ns = Raise e).
  { apply (for_each_raises extract_step n); [|done].
    intros found. exists AttributeError. by destruct n. }
  destruct Hloop as [e Hloop]. exists e. split.
  - unfold _extract_key_nutrients, extract_found. simpl.
    rewrite Hfood. simpl. rewrite py_iter_list. simpl. by rewrite Hloop.
  - exact (for_each_raise_from extract_step (λ x, is_HTTPException x = false)
             ns extract_step_raise found_init e Hloop).
Qed.

(** X13: the test [sub in name] of the name rules holds exactly when [sub]
    occurs in [name] as a run of consecutive characters. *)
Theorem contains_substring (sub s : string) :
  contains sub s = true ↔ ∃ pre post, s = pre +:+ sub +:+ post.
Proof.
  induction s as [|c s IH].
  - split.
    + intros Hin. destruct sub as [|c sub]; [by exists "", ""|done].
    + intros (pre & post & Hs).
      destruct pre as [|c pre]; [|discriminate Hs].
      destruct sub as [|c sub]; [reflexivity|discriminate Hs].
  - cbn [contains]. destruct (String.prefix sub (String c s)) eqn:Hp.
    + split; [intros _|done]. apply prefix_append in Hp as [post Hpost].
      exists "", post. exact Hpost.
    + rewrite IH. split.
      * intros (pre & post & Hs). exists (String c pre), post. by rewrite Hs.
      * intros (pre & post & Hs). destruct pre as [|c' pre].
        -- assert (String.prefix sub (String c s) = true) as Hp'
             by (apply prefix_append; exists post; exact Hs).
           congruence.
        -- change (String c s = String c' (pre +:+ sub +:+ post)) in Hs.
           injection Hs as _ Hs. by exists pre, post.
Qed.
End ExtractorFurther.

(** An entry with a broken nutrient field and the table's identifier of energy,
    but without an amount. *)
Lemma entry_without_amount_skipped_witness :
  @extract_step decimal_builtins found_init
    (VDict (<["nutrient" := VStr "208"]> {["amount" := VNull]}))
  = Ok found_init.
Proof.
  apply (@entry_without_amount_skipped decimal_builtins).
  right. vm_compute. reflexivity.
Defined.

(** A food record that only has a description. *)
Lemma extract_without_nutrient_list_witness :
  @_extract_key_nutrients decimal_builtins
    (VDict {["description" := VStr "Apple, raw"]})
  = Ok (Nutrients.mk None None None None None).
Proof.
  apply (@extract_without_nutrient_list decimal_builtins).
  vm_compute. reflexivity.
Defined.

(** A protein entry of 3 grams. *)
Lemma extract_step_sets_one_kind_witness :
  <["protein" := Some 3%float]> found_init = found_init ∨
  ∃ kind f,
    kind ∈ nutrient_kinds ∧
    @py_float decimal_builtins
      (amount_of (VDict (<["nutrient" := VDict {["id" := VInt 203]}]>
                         {["amount" := VInt 3]}))) = Ok f ∧
    <["protein" := Some 3%float]> found_init !! kind = Some (Some f) ∧
    ∀ other, other ≠ kind →
      <["protein" := Some 3%float]> found_init !! other = found_init !! other.
Proof.
  apply (@extract_step_sets_one_kind decimal_builtins found_init).
  vm_compute. reflexivity.
Defined.

(** After an extraction that found the calories, fat is still a key. *)
Lemma extract_found_keys_witness :
  is_Some (<["calories" := Some 250%float]> found_init !! "fat")
  ↔ "fat" ∈ nutrient_kinds.
Proof.
  apply (@extract_found_keys decimal_builtins
           (VDict {["foodNutrients" := VList
              [ VDict (<["nutrient" := VDict {["id" := VInt 208]}]>
                       {["amount" := VInt 250]}) ]]})).
  vm_compute. reflexivity.
Defined.

(** Protein by identifier next to fiber by name, in both orders. *)
Lemma different_kinds_commute_witness :
  @_extract_key_nutrients decimal_builtins
    (VDict (<["foodNutrients" := VList
       ([] ++ [ VDict (<["nutrient" := VDict {["id" := VInt 203]}]>
                       {["amount" := VInt 3]});
                VDict (<["nutrientName" := VStr "Fiber, total dietary"]>
                       {["amount" := VInt 2]}) ])]> ∅))
  = @_extract_key_nutrients decimal_builtins
      (VDict (<["foodNutrients" := VList
         ([] ++ [ VDict (<["nutrientName" := VStr "Fiber, total dietary"]>
                         {["amount" := VInt 2]});
                  VDict (<["nutrient" := VDict {["id" := VInt 203]}]>
                         {["amount" := VInt 3]}) ])]> ∅)).
Proof.
  apply (@different_kinds_commute decimal_builtins ∅ [] []
           (VDict (<["nutrient" := VDict {["id" := VInt 203]}]>
                   {["amount" := VInt 3]}))
           (VDict (<["nutrientName" := VStr "Fiber, total dietary"]>
                   {["amount" := VInt 2]}))
           "protein" "fiber" 3%float 2%float).
  - vm_compute. reflexivity.
  - vm_compute. reflexivity.
  - discriminate.
  - vm_compute. reflexivity.
  - vm_compute. reflexivity.
Defined.

(** A list of nutrients with a bare number among the entries. *)
Lemma extract_non_mapping_entry_witness :
  ∃ e,
    @_extract_key_nutrients decimal_builtins
      (VDict {["foodNutrients" := VList
         [ VDict (<["nutrient" := VDict {["id" := VInt 208]}]>
                  {["amount" := VInt 250]});
           VInt 5 ]]})
    = Raise e ∧ is_HTTPException e = false.
Proof.
  apply (@extract_non_mapping_entry decimal_builtins
           {["foodNutrients" := VList
              [ VDict (<["nutrient" := VDict {["id" := VInt 208]}]>
                       {["amount" := VInt 250]});
                VInt 5 ]]}
           [ VDict (<["nutrient" := VDict {["id" := VInt 208]}]>
                    {["amount" := VInt 250]});
             VInt 5 ]
           (VInt 5)).
  - vm_compute. reflexivity.
  - apply list_elem_of_further, list_elem_of_here.
  - reflexivity.
Defined.

(** ** Further properties of the request handlers *)

Lemma not_ok_status (resp : response) :
  ok resp = false → 400 ≤ status_code resp < 600.
Proof.
  unfold ok. intros Hok. apply negb_false_iff, andb_true_iff in Hok as [Hlo Hhi].
  apply Z.leb_le in Hlo. apply Z.ltb_lt in Hhi. done.
Qed.

Lemma key_present (key : string) : key ≠ "" → api_key_missing (Some key) = false.
Proof. by destruct key. Qed.

Lemma key_missing_cases (API_KEY : option string) :
  api_key_missing API_KEY = false → ∃ key, API_KEY = Some key ∧ key ≠ "".
Proof.
  destruct API_KEY as [key|]; [|done]. intros Hkey. exists key.
  split; [done|]. by intros ->.
Qed.

Lemma py_int_raise `{!Builtins} (v : value) (e : exn) :
  py_int v = Raise e → is_HTTPException e = false.
Proof.
  destruct v; simpl; try (by intros [= <-]).
  - unfold Z_of_float. destruct (Prim2SF f); by intros [= <-].
  - destruct (int_of_string s); simpl; by intros [= <-].
Qed.

Lemma extract_key_nutrients_raise `{!Builtins} (food : gmap string value) (e : exn) :
  _extract_key_nutrients (VDict food) = Raise e → is_HTTPException e = false.
Proof.
  unfold _extract_key_nutrients, extract_found. simpl.
  destruct (py_iter _) as [ns|e'] eqn:Hiter; simpl.
  - destruct (for_each extract_step found_init ns) as [found|e'] eqn:Hloop;
      simpl; [done|].
    intros [= <-].
    exact (for_each_raise_from extract_step (λ x, is_HTTPException x = false)
             ns extract_step_raise found_init e' Hloop).
  - intros [= <-].
    destruct (py_or _ _); simpl in Hiter; by inversion Hiter.
Qed.

Section HandlerFacts.
Context `{!Builtins}.

(** Past the status checks, what [search_foods] raises is not an HTTP error. *)
Lemma search_result_ok_raise (page : Z) (resp : response) (e : exn) :
  ok resp = true → search_result page resp = Raise e → is_HTTPException e = false.
Proof.
  intros Hok. unfold search_result. rewrite Hok. simpl.
  destruct (json resp) as [parsed|]; simpl; [|by intros [= <-]].
  destruct (py_or parsed (VDict ∅)) as [| | | | | |data];
    try (by intros [= <-]).
  simpl.
  destruct (_simplify_foods _) as [foods|e1] eqn:Hfoods; simpl.
  2:{ intros [= <-]. by eapply simplify_foods_raise. }
  destruct (py_int (py_or (default (VInt 0) (data !! "totalHits")) _))
    as [total_hits|e1] eqn:Hhits; simpl.
  2:{ intros [= <-]. by eapply py_int_raise. }
  destruct (py_int (py_or (default (VInt page) (data !! "currentPage")) _))
    as [current_page|e1] eqn:Hcur; simpl.
  2:{ intros [= <-]. by eapply py_int_raise. }
  destruct (py_int (py_or (default (VInt 0) (data !! "totalPages")) _))
    as [total_pages|e1] eqn:Hpages; simpl; [done|].
  intros [= <-]. by eapply py_int_raise.
Qed.

Lemma details_result_ok_raise (fdc_id : Z) (resp : response) (e : exn) :
  ok resp = true → details_result fdc_id resp = Raise e → is_HTTPException e = false.
Proof.
  intros Hok. unfold details_result. rewrite (ok_not_404 resp Hok), Hok. simpl.
  destruct (json resp) as [parsed|]; simpl; [|by intros [= <-]].
  destruct (py_or parsed (VDict ∅)) as [| | | | | |data] eqn:Hdata;
    try (by intros [= <-]).
  simpl.
  destruct (_extract_key_nutrients (VDict data)) as [nutrients|e1] eqn:Hnut; simpl.
  2:{ intros [= <-]. by eapply extract_key_nutrients_raise. }
  destruct (py_int _) as [id|e1] eqn:Hid; simpl; [done|].
  intros [= <-]. by eapply py_int_raise.
Qed.

Lemma search_result_http (page : Z) (resp : response) (st : Z) (detail : string) :
  search_result page resp = Raise (HTTPException st detail) ↔
  ok resp = false ∧ st = status_code resp ∧ detail = "USDA search failed".
Proof.
  split.
  - destruct (ok resp) eqn:Hok.
    + intros Hraise. by apply (search_result_ok_raise _ _ _ Hok) in Hraise.
    + unfold search_result. rewrite Hok. simpl. by intros [= <- <-].
  - intros (Hok & -> & ->). unfold search_result. by rewrite Hok.
Qed.

Lemma details_result_http (fdc_id : Z) (resp : response) (st : Z) (detail : string) :
  details_result fdc_id resp = Raise (HTTPException st detail) ↔
  ok resp = false ∧ st = status_code resp ∧
  detail = (if st =? 404 then "Food not found" else "USDA detail failed").
Proof.
  split.
  - destruct (ok resp) eqn:Hok.
    + intros Hraise. by apply (details_result_ok_raise _ _ _ Hok) in Hraise.
    + unfold details_result. rewrite Hok. simpl.
      destruct (status_code resp =? 404) eqn:H404.
      * apply Z.eqb_eq in H404. rewrite H404. by intros [= <- <-].
      * intros [= <- <-]. by rewrite H404.
  - intros (Hok & -> & ->). unfold details_result. rewrite Hok. simpl.
    destruct (status_code resp =? 404) eqn:H404; [|done].
    apply Z.eqb_eq in H404. by rewrite H404.
Qed.
End HandlerFacts.

Section HandlerFurther.
Context `{!Builtins}.

(** X14: with a credential configured, each handler makes exactly one
    upstream call whatever the upstream answers, be it an exception, an error
    status or a body that cannot be used: the log grows by the one request of
    the fixed form, with page size 20 and timeout 12, and nothing is tried
    again. *)
Theorem handlers_call_upstream_once (key : string) (get : transport)
    (query : string) (page fdc_id : Z) (calls : list request) :
  key ≠ "" →
  snd (search_foods (Some key) get query page calls)
    = calls ++ [search_request key query page] ∧
  snd (get_food_details (Some key) get fdc_id calls)
    = calls ++ [details_request key fdc_id].
Proof.
  intros Hkey. unfold search_foods, get_food_details, _ensure_api_key.
  rewrite (key_present key Hkey). simpl.
  change {| url := SEARCH_URL; params := _; timeout := 12 |}
    with (search_request key query page).
  change {| url := DETAIL_URL_TMPL _; params := _; timeout := 12 |}
    with (details_request key fdc_id).
  by destruct (get (search_request key query page)),
              (get (details_request key fdc_id)).
Qed.

(** X15: the HTTP errors of the search handler are these three and no other:
    status 500 when the credential is missing; status 502 with the text of
    the exception when the upstream call raises; and the status of the
    upstream, with a fixed message and nothing of the upstream body, when the
    upstream answers with an error status. *)
Theorem search_http_errors (API_KEY : option string) (get : transport)
    (query : string) (page : Z) (calls : list request)
    (st : Z) (detail : string) :
  fst (search_foods API_KEY get query page calls)
    = Raise (HTTPException st detail) ↔
  (api_key_missing API_KEY = true ∧ st = 500 ∧
   detail = "Server misconfigured: USDA_API_KEY missing. Add it to .env") ∨
  (∃ key, API_KEY = Some key ∧ key ≠ "" ∧
     ((∃ msg, get (search_request key query page) = inl msg ∧ st = 502 ∧
              detail = "Upstream request failed: " +:+ msg) ∨
      (∃ resp, get (search_request key query page) = inr resp ∧
               ok resp = false ∧ st = status_code resp ∧
               detail = "USDA search failed"))).
Proof.
  unfold search_foods, _ensure_api_key.
  destruct (api_key_missing API_KEY) eqn:Hmissing.
  - simpl. split.
    + intros [= <- <-]. by left.
    + intros [(_ & -> & ->)|(key & -> & Hkey & _)]; [done|].
      by rewrite (key_present key Hkey) in Hmissing.
  - destruct (key_missing_cases API_KEY Hmissing) as (key & -> & Hkey). simpl.
    change {| url := SEARCH_URL; params := _; timeout := 12 |}
      with (search_request key query page).
    destruct (get (search_request key query page)) as [msg|resp] eqn:Hget; simpl.
    + split.
      * intros [= <- <-]. right. exists key. split; [done|]. split; [done|].
        left. by exists msg.
      * intros [(? & _)|(key' & [= <-] & _ & Hcase)]; [congruence|].
        destruct Hcase as [(msg' & Hmsg & -> & ->)|(resp & Hresp & _)];
          congruence.
    + rewrite search_result_http. split.
      * intros (Hok & -> & ->). right. exists key. split; [done|]. split; [done|].
        right. by exists resp.
      * intros [(? & _)|(key' & [= <-] & _ & Hcase)]; [congruence|].
        destruct Hcase as [(msg & Hmsg & _)|(resp' & Hresp & Hok & -> & ->)];
          [congruence|].
        assert (resp' = resp) as -> by congruence. done.
Qed.

(** X16: the HTTP errors of the detail handler are the same three, except
    that an upstream status 404 is answered with the message
    "Food not found". *)
Theorem details_http_errors (API_KEY : option string) (get : transport)
    (fdc_id : Z) (calls : list request) (st : Z) (detail : string) :
  fst (get_food_details API_KEY get fdc_id calls)
    = Raise (HTTPException st detail) ↔
  (api_key_missing API_KEY = true ∧ st = 500 ∧
   detail = "Server misconfigured: USDA_API_KEY missing. Add it to .env") ∨
  (∃ key, API_KEY = Some key ∧ key ≠ "" ∧
     ((∃ msg, get (details_request key fdc_id) = inl msg ∧ st = 502 ∧
              detail = "Upstream request failed: " +:+ msg) ∨
      (∃ resp, get (details_request key fdc_id) = inr resp ∧
               ok resp = false ∧ st = status_code resp ∧
               detail = (if st =? 404 then "Food not found"
                         else "USDA detail failed")))).
Proof.
  unfold get_food_details, _ensure_api_key.
  destruct (api_key_missing API_KEY) eqn:Hmissing.
  - simpl. split.
    + intros [= <- <-]. by left.
    + intros [(_ & -> & ->)|(key & -> & Hkey & _)]; [done|].
      by rewrite (key_present key Hkey) in Hmissing.
  - destruct (key_missing_cases API_KEY Hmissing) as (key & -> & Hkey). simpl.
    change {| url := DETAIL_URL_TMPL _; params := _; timeout := 12 |}
      with (details_request key fdc_id).
    destruct (get (details_request key fdc_id)) as [msg|resp] eqn:Hget; simpl.
    + split.
      * intros [= <- <-]. right. exists key. split; [done|]. split; [done|].
        left. by exists msg.
      * intros [(? & _)|(key' & [= <-] & _ & Hcase)]; [congruence|].
        destruct Hcase as [(msg' & Hmsg & -> & ->)|(resp & Hresp & _)];
          congruence.
    + rewrite details_result_http. split.
      * intros (Hok & -> & ->). right. exists key. split; [done|]. split; [done|].
        right. by exists resp.
      * intros [(? & _)|(key' & [= <-] & _ & Hcase)]; [congruence|].
        destruct Hcase as [(msg & Hmsg & _)|(resp' & Hresp & Hok & -> & ->)];
          [congruence|].
        assert (resp' = resp) as -> by congruence. done.
Qed.

(** The defaults of the detail handler, on the response it received. *)
Lemma details_result_defaults (resp : response) (data : gmap string value)
    (fdc_id : Z) (r : FoodDetails.t) :
  ok resp = true →
  json resp = Some (VDict data) →
  details_result fdc_id resp = Ok r →
  (truthy (default VNull (data !! "fdcId")) = false →
   FoodDetails.fdcId r = fdc_id) ∧
  (truthy (default VNull (data !! "description")) = false →
   FoodDetails.description r = "Unknown item").
Proof.
  intros Hok Hjson. unfold details_result.
  rewrite (ok_not_404 resp Hok), Hok, Hjson. simpl. rewrite py_or_dict. simpl.
  destruct (_extract_key_nutrients (VDict data)) as [nutrients|]; simpl; [|done].
  destruct (py_int _) as [id|] eqn:Hid; simpl; [|done].
  intros [= <-]. simpl. split.
  - intros Hfalsy. destruct (data !! "fdcId") as [v|]; simpl in *.
    + rewrite (py_or_falsy v) in Hid by done. by injection Hid.
    + rewrite py_or_same in Hid. by injection Hid.
  - intros Hfalsy. by rewrite (py_or_falsy _ _ Hfalsy).
Qed.

(** The defaults of the search handler, on the response it received. *)
Lemma search_result_defaults (resp : response) (data : gmap string value)
    (page : Z) (r : SearchResponse.t) :
  ok resp = true →
  json resp = Some (VDict data) →
  search_result page resp = Ok r →
  (truthy (default VNull (data !! "foods")) = false →
   SearchResponse.foods r = []) ∧
  (truthy (default VNull (data !! "totalHits")) = false →
   SearchResponse.totalHits r = 0) ∧
  (truthy (default VNull (data !! "totalPages")) = false →
   SearchResponse.totalPages r = 0).
Proof.
  intros Hok Hjson. unfold search_result. rewrite Hok, Hjson. simpl.
  rewrite py_or_dict. simpl.
  destruct (_simplify_foods _) as [foods|] eqn:Hfoods; simpl; [|done].
  destruct (py_int (py_or (default (VInt 0) (data !! "totalHits")) _))
    as [total_hits|] eqn:Hhits; simpl; [|done].
  destruct (py_int (py_or (default (VInt page) (data !! "currentPage")) _))
    as [current_page|]; simpl; [|done].
  destruct (py_int (py_or (default (VInt 0) (data !! "totalPages")) _))
    as [total_pages|] eqn:Hpages; simpl; [|done].
  intros [= <-]. simpl. repeat split.
  - intros Hfalsy. destruct (data !! "foods") as [v|]; simpl in *.
    + unfold _simplify_foods in Hfoods.
      rewrite (py_or_falsy v) in Hfoods by done. by injection Hfoods.
    + by injection Hfoods.
  - intros Hfalsy. destruct (data !! "totalHits") as [v|]; simpl in *.
    + rewrite (py_or_falsy v) in Hhits by done. by injection Hhits.
    + by injection Hhits.
  - intros Hfalsy. destruct (data !! "totalPages") as [v|]; simpl in *.
    + rewrite (py_or_falsy v) in Hpages by done. by injection Hpages.
    + by injection Hpages.
Qed.
End HandlerFurther.

(** An upstream that cannot be reached is called once by each handler. *)
Lemma handlers_call_upstream_once_witness :
  snd (@search_foods decimal_builtins (Some "key") (λ _, inl "timed out")
         "apple" 2 [])
    = [] ++ [search_request "key" "apple" 2] ∧
  snd (@get_food_details decimal_builtins (Some "key") (λ _, inl "timed out")
         1001 [])
    = [] ++ [@details_request decimal_builtins "key" 1001].
Proof.
  apply (@handlers_call_upstream_once decimal_builtins "key"
           (λ _, inl "timed out") "apple" 2 1001 []).
  discriminate.
Defined.

(** ** The Extractor's result and the handlers' responses

    The properties of single loop steps and of the handlers' treatment of a
    response, carried over to [_extract_key_nutrients] as a whole and to
    [search_foods] and [get_food_details] for every transport. *)

Lemma filter_none {A : Type} (P : A → Prop) `{!∀ x, Decision (P x)} (l : list A) :
  Forall (λ x, ¬ P x) l → filter P l = [].
Proof.
  induction 1 as [|x l Hx _ IH]; [done|].
  by rewrite filter_cons_False.
Qed.

Lemma nutrient_field_of (found : gmap string (option PrimFloat.float))
    (kind : string) :
  kind ∈ nutrient_kinds →
  nutrient_field (Nutrients_of found) kind = default None (found !! kind).
Proof.
  unfold nutrient_kinds. rewrite !elem_of_cons, elem_of_nil.
  intros [->|[->|[->|[->|[->|[]]]]]]; reflexivity.
Qed.

Lemma found_init_empty (kind : string) :
  kind ∈ nutrient_kinds → found_init !! kind = Some None.
Proof.
  unfold nutrient_kinds. rewrite !elem_of_cons, elem_of_nil.
  intros [->|[->|[->|[->|[->|[]]]]]]; reflexivity.
Qed.

Section ResultFacts.
Context `{!Builtins}.

Lemma extract_entries (food : gmap string value) (ns : list value) :
  food !! "foodNutrients" = Some (VList ns) →
  _extract_key_nutrients (VDict food) =
    (found ← for_each extract_step found_init ns; Ok (Nutrients_of found)).
Proof.
  intros Hfood. unfold _extract_key_nutrients, extract_found. simpl.
  rewrite Hfood. simpl. by rewrite py_iter_list.
Qed.

Lemma extract_around (food : gmap string value) (before after : list value)
    (m : value) :
  food !! "foodNutrients" = Some (VList (before ++ m :: after)) →
  _extract_key_nutrients (VDict food) =
    (found ← for_each extract_step found_init before;
     found1 ← extract_step found m;
     found' ← for_each extract_step found1 after;
     Ok (Nutrients_of found')).
Proof.
  intros Hfood. rewrite (extract_entries food _ Hfood), for_each_app.
  destruct (for_each extract_step found_init before) as [found|]; simpl; [|done].
  by destruct (extract_step found m).
Qed.

Lemma extract_last_entry (food : gmap string value) (before after : list value)
    (m : value) (kind : string) (r : Nutrients.t) :
  food !! "foodNutrients" = Some (VList (before ++ m :: after)) →
  matched_kind m = Some kind →
  Forall (λ x, matched_kind x ≠ Some kind) after →
  _extract_key_nutrients (VDict food) = Ok r →
  ∃ f, py_float (amount_of m) = Ok f ∧ nutrient_field r kind = Some f.
Proof.
  intros Hfood Hkind Hafter. rewrite (extract_entries food _ Hfood).
  destruct (for_each extract_step found_init (before ++ m :: after))
    as [found|] eqn:Hloop; simpl; [|done].
  intros [= <-].
  pose proof (extract_loop_last _ _ _ kind Hloop) as Hlast.
  rewrite filter_app, filter_cons_True, (filter_none _ after Hafter) in Hlast
    by done.
  rewrite last_snoc in Hlast. destruct Hlast as (f & Hf & Hfound).
  exists f. split; [done|].
  rewrite nutrient_field_of by (by eapply matched_kind_kinds).
  by rewrite Hfound.
Qed.

Lemma extract_no_entry (food : gmap string value) (ns : list value)
    (kind : string) (r : Nutrients.t) :
  food !! "foodNutrients" = Some (VList ns) →
  kind ∈ nutrient_kinds →
  Forall (λ x, matched_kind x ≠ Some kind) ns →
  _extract_key_nutrients (VDict food) = Ok r →
  nutrient_field r kind = None.
Proof.
  intros Hfood Hin Hns. rewrite (extract_entries food _ Hfood).
  destruct (for_each extract_step found_init ns) as [found|] eqn:Hloop;
    simpl; [|done].
  intros [= <-].
  pose proof (extract_loop_last _ _ _ kind Hloop) as Hlast.
  rewrite (filter_none _ ns Hns) in Hlast. simpl in Hlast.
  rewrite nutrient_field_of by done.
  by rewrite Hlast, (found_init_empty kind Hin).
Qed.

Lemma matched_kind_id (n nut : gmap string value) (a : value) (z : Z)
    (kind : string) :
  n !! "amount" = Some a →
  a ≠ VNull →
  n !! "nutrient" = Some (VDict nut) →
  nut !! "id" = Some (VInt z) →
  KEY_NUTRIENT_IDS !! z = Some kind →
  matched_kind (VDict n) = Some kind ∧ amount_of (VDict n) = a.
Proof.
  intros Hamount Hnull Hnut Hid Htable.
  unfold matched_kind, amount_of, entry_amount, entry_nutrient, id_kind.
  rewrite Hamount, Hnut. simpl. rewrite py_or_dict.
  destruct a; try done; simpl; rewrite Hid; simpl; by rewrite Htable.
Qed.

Lemma matched_kind_name (n nut : gmap string value) (a : value) (s : string) :
  n !! "amount" = Some a →
  a ≠ VNull →
  entry_nutrient n = Some nut →
  id_kind nut = None →
  py_or (py_or (default VNull (nut !! "name"))
               (default VNull (n !! "nutrientName"))) (VStr "") = VStr s →
  matched_kind (VDict n) = first_match (lower s) ∧ amount_of (VDict n) = a.
Proof.
  intros Hamount Hnull Hnut Hid Hname.
  unfold matched_kind, amount_of, entry_amount, entry_name.
  rewrite Hamount, Hnut. simpl. rewrite Hid, Hname. by destruct a.
Qed.

Lemma search_foods_response (key : string) (get : transport) (query : string)
    (page : Z) (calls : list request) (resp : response) :
  key ≠ "" →
  get (search_request key query page) = inr resp →
  search_foods (Some key) get query page calls =
    (search_result page resp, calls ++ [search_request key query page]).
Proof.
  intros Hkey Hget. unfold search_foods, _ensure_api_key.
  rewrite (key_present key Hkey). simpl.
  change {| url := SEARCH_URL; params := _; timeout := 12 |}
    with (search_request key query page).
  by rewrite Hget.
Qed.

Lemma get_food_details_response (key : string) (get : transport) (fdc_id : Z)
    (calls : list request) (resp : response) :
  key ≠ "" →
  get (details_request key fdc_id) = inr resp →
  get_food_details (Some key) get fdc_id calls =
    (details_result fdc_id resp, calls ++ [details_request key fdc_id]).
Proof.
  intros Hkey Hget. unfold get_food_details, _ensure_api_key.
  rewrite (key_present key Hkey). simpl.
  change {| url := DETAIL_URL_TMPL _; params := _; timeout := 12 |}
    with (details_request key fdc_id).
  by rewrite Hget.
Qed.
End ResultFacts.

Section ResultClaims.
Context `{!Builtins}.

(** C3: for a food record with a nutrient entry whose amount is present and
    whose nested nutrient identifier is an integer of the table 208 calories,
    203 protein, 204 fat, 205 carbs, 291 fiber, the Extractor runs the
    entries before it, assigns the coerced amount of the entry to the kind of
    the table, and goes on with the entries after it; when it returns and no
    later entry matches the kind, the field of the kind holds that amount.
    Name matching is not tried for the entry: the result is the same
    whatever its nested name and its legacy flat name are. *)
Theorem id_match_assigns (food : gmap string value)
    (before after : list value) (n nut : gmap string value) (a : value)
    (z : Z) (kind : string) :
  food !! "foodNutrients" = Some (VList (before ++ VDict n :: after)) →
  n !! "amount" = Some a →
  a ≠ VNull →
  n !! "nutrient" = Some (VDict nut) →
  nut !! "id" = Some (VInt z) →
  (z, kind) ∈ [ (208, "calories"); (203, "protein"); (204, "fat");
                (205, "carbs"); (291, "fiber") ] →
  _extract_key_nutrients (VDict food) =
    (found ← for_each extract_step found_init before;
     f ← py_float a;
     found' ← for_each extract_step (<[kind := Some f]> found) after;
     Ok (Nutrients_of found')) ∧
  (Forall (λ m, matched_kind m ≠ Some kind) after →
   ∀ r, _extract_key_nutrients (VDict food) = Ok r →
        ∃ f, py_float a = Ok f ∧ nutrient_field r kind = Some f) ∧
  (∀ name flat : value,
     _extract_key_nutrients
       (VDict (<["foodNutrients" :=
                   VList (before ++
                          VDict (<["nutrientName" := flat]>
                                   (<["nutrient" := VDict (<["name" := name]> nut)]> n))
                          :: after)]> food))
     = _extract_key_nutrients (VDict food)).
Proof.
  intros Hfood Hamount Hnull Hnut Hid Htable.
  destruct (extract_step_id_match found_init n nut a z kind
              Hamount Hnull Hnut Hid Htable) as [_ _].
  assert (Hstep : ∀ found, extract_step found (VDict n) =
                    (f ← py_float a; Ok (<[kind := Some f]> found))).
  { intros found.
    by destruct (extract_step_id_match found n nut a z kind
                   Hamount Hnull Hnut Hid Htable). }
  assert (Hrun : _extract_key_nutrients (VDict food) =
            (found ← for_each extract_step found_init before;
             f ← py_float a;
             found' ← for_each extract_step (<[kind := Some f]> found) after;
             Ok (Nutrients_of found'))).
  { rewrite (extract_around food before after (VDict n) Hfood).
    destruct (for_each extract_step found_init before) as [found|]; simpl;
      [|done].
    rewrite Hstep. by destruct (py_float a). }
  split; [exact Hrun|]. split.
  - intros Hafter r Hr.
    apply key_nutrient_table in Htable.
    destruct (matched_kind_id n nut a z kind Hamount Hnull Hnut Hid Htable)
      as [Hkind Ha].
    destruct (extract_last_entry food before after (VDict n) kind r
                Hfood Hkind Hafter Hr) as (f & Hf & Hfield).
    exists f. by rewrite <- Ha.
  - intros name flat. rewrite Hrun.
    rewrite (extract_around _ before after
               (VDict (<["nutrientName" := flat]>
                         (<["nutrient" := VDict (<["name" := name]> nut)]> n))))
      by apply lookup_insert_eq.
    destruct (for_each extract_step found_init before) as [found|]; simpl;
      [|done].
    destruct (extract_step_id_match found n nut a z kind
                Hamount Hnull Hnut Hid Htable) as [_ Hsame].
    rewrite Hsame. by destruct (py_float a).
Qed.

(** C4: for a food record with a nutrient entry that has an amount and that
    no identifier of the table selects, the Extractor matches the lower-cased
    name of the entry against the rules energy or calorie, protein,
    carbohydrate, fiber, fat and not saturated, in this order: the coerced
    amount goes to the kind of the first rule the name satisfies and to no
    other, and an entry satisfying none is passed over; when the Extractor
    returns and no later entry matches that kind, its field holds the
    amount.  A name that contains both "fat" and "saturated" is never taken
    for fat: when no other entry matches fat, the result has no fat. *)
Theorem name_match_priority (food : gmap string value)
    (before after : list value) (n nut : gmap string value) (a : value)
    (s : string) :
  food !! "foodNutrients" = Some (VList (before ++ VDict n :: after)) →
  n !! "amount" = Some a →
  a ≠ VNull →
  entry_nutrient n = Some nut →
  id_kind nut = None →
  py_or (py_or (default VNull (nut !! "name"))
               (default VNull (n !! "nutrientName"))) (VStr "") = VStr s →
  _extract_key_nutrients (VDict food) =
    (found ← for_each extract_step found_init before;
     found1 ← match first_match (lower s) with
              | Some kind => f ← py_float a; Ok (<[kind := Some f]> found)
              | None => Ok found
              end;
     found' ← for_each extract_step found1 after;
     Ok (Nutrients_of found')) ∧
  (∀ kind,
     first_match (lower s) = Some kind →
     Forall (λ m, matched_kind m ≠ Some kind) after →
     ∀ r, _extract_key_nutrients (VDict food) = Ok r →
          ∃ f, py_float a = Ok f ∧ nutrient_field r kind = Some f) ∧
  (contains "fat" (lower s) = true →
   contains "saturated" (lower s) = true →
   first_match (lower s) ≠ Some "fat" ∧
   (Forall (λ m, matched_kind m ≠ Some "fat") (before ++ after) →
    ∀ r, _extract_key_nutrients (VDict food) = Ok r → Nutrients.fat r = None)).
Proof.
  intros Hfood Hamount Hnull Hnut Hid Hname.
  destruct (matched_kind_name n nut a s Hamount Hnull Hnut Hid Hname)
    as [Hkind Ha].
  split; [|split].
  - rewrite (extract_around food before after (VDict n) Hfood).
    destruct (for_each extract_step found_init before) as [found|]; simpl;
      [|done].
    by destruct (extract_step_name_match found n nut a s
                   Hamount Hnull Hnut Hid Hname) as [-> _].
  - intros kind Hfirst Hafter r Hr. rewrite Hfirst in Hkind.
    destruct (extract_last_entry food before after (VDict n) kind r
                Hfood Hkind Hafter Hr) as (f & Hf & Hfield).
    exists f. by rewrite <- Ha.
  - intros Hfat Hsat.
    destruct (extract_step_name_match found_init n nut a s
                Hamount Hnull Hnut Hid Hname) as [_ Hno].
    destruct (Hno Hfat Hsat) as [Hnofat _]. split; [exact Hnofat|].
    intros Hothers r Hr.
    apply Forall_app in Hothers as [Hbefore Hafter].
    assert (Hall : Forall (λ m, matched_kind m ≠ Some "fat")
                     (before ++ VDict n :: after)).
    { apply Forall_app. split; [done|]. constructor; [|done]. by rewrite Hkind. }
    assert (Hin : "fat" ∈ nutrient_kinds) by (by apply (bool_decide_unpack _)).
    exact (extract_no_entry food _ "fat" r Hfood Hin Hall Hr).
Qed.

(** C2 (as amended): with the credential configured, when the upstream
    answers with a successful status and a body that parses to a falsy JSON
    value (null, false, zero, an empty string, array or object), the search
    handler returns no items, zero matches, the requested page and zero
    pages, and the detail handler returns the requested id, the description
    "Unknown item" and no nutrient: both go on as with an empty mapping. *)
Theorem falsy_body_is_empty_mapping (key : string) (get : transport)
    (query : string) (page fdc_id : Z) (calls : list request) :
  key ≠ "" →
  (∀ resp v,
     get (search_request key query page) = inr resp →
     ok resp = true → json resp = Some v → truthy v = false →
     fst (search_foods (Some key) get query page calls)
       = Ok (SearchResponse.mk [] 0 page 0)) ∧
  (∀ resp v,
     get (details_request key fdc_id) = inr resp →
     ok resp = true → json resp = Some v → truthy v = false →
     fst (get_food_details (Some key) get fdc_id calls)
       = Ok (FoodDetails.mk fdc_id "Unknown item"
               (Nutrients.mk None None None None None))).
Proof.
  intros Hkey. split; intros resp v Hget Hok Hjson Hfalsy.
  - rewrite (search_foods_response key get query page calls resp Hkey Hget).
    simpl. by destruct (falsy_body_results resp v page fdc_id Hok Hjson Hfalsy).
  - rewrite (get_food_details_response key get fdc_id calls resp Hkey Hget).
    simpl. by destruct (falsy_body_results resp v page fdc_id Hok Hjson Hfalsy).
Qed.

(** C10: with the credential configured, when the upstream answers a search
    successfully with an object whose [currentPage] is present but falsy, the
    search handler returns what the other fields give, with the requested
    page as page number; and it answers as it does when the upstream sends
    the same object without the [currentPage] field. *)
Theorem falsy_current_page_falls_back (key : string) (get : transport)
    (query : string) (page : Z) (calls : list request) (resp : response)
    (data : gmap string value) (v : value) :
  key ≠ "" →
  get (search_request key query page) = inr resp →
  ok resp = true →
  json resp = Some (VDict data) →
  data !! "currentPage" = Some v →
  truthy v = false →
  fst (search_foods (Some key) get query page calls) =
    (foods ← _simplify_foods (default (VList []) (data !! "foods"));
     total_hits ← py_int (py_or (default (VInt 0) (data !! "totalHits")) (VInt 0));
     total_pages ← py_int (py_or (default (VInt 0) (data !! "totalPages")) (VInt 0));
     Ok (SearchResponse.mk foods total_hits page total_pages)) ∧
  (∀ r, fst (search_foods (Some key) get query page calls) = Ok r →
        SearchResponse.pageNumber r = page) ∧
  (∀ get' : transport,
     get' (search_request key query page)
       = inr {| status_code := status_code resp;
                json := Some (VDict (delete "currentPage" data)) |} →
     search_foods (Some key) get' query page calls
       = search_foods (Some key) get query page calls).
Proof.
  intros Hkey Hget Hok Hjson Hcurrent Hfalsy.
  destruct (falsy_current_page_result resp data v page Hok Hjson Hcurrent Hfalsy)
    as [Hpage Hsame].
  rewrite (search_foods_response key get query page calls resp Hkey Hget).
  simpl. split; [|split].
  - unfold search_result. rewrite Hok, Hjson. simpl. rewrite py_or_dict. simpl.
    destruct (_simplify_foods _); simpl; [|done].
    destruct (py_int (py_or (default (VInt 0) (data !! "totalHits")) _));
      simpl; [|done].
    rewrite Hcurrent. simpl. rewrite (py_or_falsy v) by done. simpl.
    by destruct (py_int (py_or (default (VInt 0) (data !! "totalPages")) _)).
  - exact Hpage.
  - intros get' Hget'.
    rewrite (search_foods_response key get' query page calls _ Hkey Hget').
    by rewrite Hsame.
Qed.

(** X17: with the credential configured, whenever the detail handler returns
    for a successful upstream answer that is an object, a missing or falsy
    [fdcId] is replaced by the requested identifier and a missing or falsy
    [description] by "Unknown item". *)
Theorem details_defaults (key : string) (get : transport) (fdc_id : Z)
    (calls : list request) (resp : response) (data : gmap string value)
    (r : FoodDetails.t) :
  key ≠ "" →
  get (details_request key fdc_id) = inr resp →
  ok resp = true →
  json resp = Some (VDict data) →
  fst (get_food_details (Some key) get fdc_id calls) = Ok r →
  (truthy (default VNull (data !! "fdcId")) = false →
   FoodDetails.fdcId r = fdc_id) ∧
  (truthy (default VNull (data !! "description")) = false →
   FoodDetails.description r = "Unknown item").
Proof.
  intros Hkey Hget Hok Hjson.
  rewrite (get_food_details_response key get fdc_id calls resp Hkey Hget).
  simpl. by apply details_result_defaults.
Qed.

(** X18: with the credential configured, whenever the search handler returns
    for a successful upstream answer that is an object, a missing or falsy
    [foods] gives no items, and a missing or falsy [totalHits] or
    [totalPages] gives 0. *)
Theorem search_defaults (key : string) (get : transport) (query : string)
    (page : Z) (calls : list request) (resp : response)
    (data : gmap string value) (r : SearchResponse.t) :
  key ≠ "" →
  get (search_request key query page) = inr resp →
  ok resp = true →
  json resp = Some (VDict data) →
  fst (search_foods (Some key) get query page calls) = Ok r →
  (truthy (default VNull (data !! "foods")) = false →
   SearchResponse.foods r = []) ∧
  (truthy (default VNull (data !! "totalHits")) = false →
   SearchResponse.totalHits r = 0) ∧
  (truthy (default VNull (data !! "totalPages")) = false →
   SearchResponse.totalPages r = 0).
Proof.
  intros Hkey Hget Hok Hjson.
  rewrite (search_foods_response key get query page calls resp Hkey Hget).
  simpl. by apply search_result_defaults.
Qed.
End ResultClaims.

(** C2, as stated, fails: with the credential configured and a successful
    upstream status, a body that is not a JSON document, or one that is a
    non-empty JSON array, makes both handlers raise, where an empty mapping
    makes the search handler return the defaults. *)
Lemma unparseable_body_raises :
  fst (@search_foods decimal_builtins (Some "key")
         (λ _, inr {| status_code := 200; json := None |}) "apple" 1 [])
    = Raise JSONDecodeError ∧
  fst (@get_food_details decimal_builtins (Some "key")
         (λ _, inr {| status_code := 200; json := None |}) 42 [])
    = Raise JSONDecodeError ∧
  fst (@search_foods decimal_builtins (Some "key")
         (λ _, inr {| status_code := 200; json := Some (VList [VInt 1]) |})
         "apple" 1 [])
    = Raise AttributeError ∧
  fst (@get_food_details decimal_builtins (Some "key")
         (λ _, inr {| status_code := 200; json := Some (VList [VInt 1]) |}) 42 [])
    = Raise AttributeError ∧
  fst (@search_foods decimal_builtins (Some "key")
         (λ _, inr {| status_code := 200; json := Some (VDict ∅) |}) "apple" 1 [])
    = Ok (SearchResponse.mk [] 0 1 0).
Proof. repeat split; vm_compute; reflexivity. Qed.

(** Identifier 208 sets the calories of the result whatever the name says. *)
Lemma id_match_assigns_witness :
  @_extract_key_nutrients decimal_builtins
    (VDict {["foodNutrients" := VList
       ([] ++ [ VDict (<["nutrient" := VDict (<["id" := VInt 208]>
                                              {["name" := VStr "Completely unrelated"]})]>
                       {["amount" := VInt 250]}) ])]})
  = Ok (Nutrients.mk (Some 250%float) None None None None).
Proof.
  destruct (@id_match_assigns decimal_builtins
    ({["foodNutrients" := VList
        ([] ++ [ VDict (<["nutrient" := VDict (<["id" := VInt 208]>
                                               {["name" := VStr "Completely unrelated"]})]>
                        {["amount" := VInt 250]}) ])]} : gmap string value)
    [] []
    (<["nutrient" := VDict (<["id" := VInt 208]>
                            {["name" := VStr "Completely unrelated"]})]>
     {["amount" := VInt 250]})
    (<["id" := VInt 208]> {["name" := VStr "Completely unrelated"]})
    (VInt 250) 208 "calories") as (Hrun & _ & _).
  - reflexivity.
  - vm_compute. reflexivity.
  - discriminate.
  - vm_compute. reflexivity.
  - vm_compute. reflexivity.
  - apply list_elem_of_here.
  - rewrite Hrun. vm_compute. reflexivity.
Defined.

(** A protein entry matched by its name sets the protein of the result, and
    saturated fat is not taken for fat. *)
Lemma name_match_priority_witness :
  @_extract_key_nutrients decimal_builtins
    (VDict {["foodNutrients" := VList
       ([] ++ [ VDict (<["nutrient" := VDict {["name" := VStr "Protein"]}]>
                       {["amount" := VFloat 12.5%float]}) ])]})
  = Ok (Nutrients.mk None (Some 12.5%float) None None None) ∧
  @_extract_key_nutrients decimal_builtins
    (VDict {["foodNutrients" := VList
       ([] ++ [ VDict (<["nutrient" :=
                           VDict {["name" := VStr "Fatty acids, total saturated"]}]>
                       {["amount" := VInt 5]}) ])]})
  = Ok (Nutrients.mk None None None None None).
Proof.
  split.
  - destruct (@name_match_priority decimal_builtins
      ({["foodNutrients" := VList
          ([] ++ [ VDict (<["nutrient" := VDict {["name" := VStr "Protein"]}]>
                          {["amount" := VFloat 12.5%float]}) ])]}
         : gmap string value)
      [] []
      (<["nutrient" := VDict {["name" := VStr "Protein"]}]>
       {["amount" := VFloat 12.5%float]})
      {["name" := VStr "Protein"]}
      (VFloat 12.5%float) "Protein") as (Hrun & _ & _).
    + reflexivity.
    + vm_compute. reflexivity.
    + discriminate.
    + vm_compute. reflexivity.
    + vm_compute. reflexivity.
    + vm_compute. reflexivity.
    + rewrite Hrun. vm_compute. reflexivity.
  - destruct (@name_match_priority decimal_builtins
      ({["foodNutrients" := VList
          ([] ++ [ VDict (<["nutrient" :=
                              VDict {["name" := VStr "Fatty acids, total saturated"]}]>
                          {["amount" := VInt 5]}) ])]}
         : gmap string value)
      [] []
      (<["nutrient" := VDict {["name" := VStr "Fatty acids, total saturated"]}]>
       {["amount" := VInt 5]})
      {["name" := VStr "Fatty acids, total saturated"]}
      (VInt 5) "Fatty acids, total saturated") as (Hrun & _ & _).
    + reflexivity.
    + vm_compute. reflexivity.
    + discriminate.
    + vm_compute. reflexivity.
    + vm_compute. reflexivity.
    + vm_compute. reflexivity.
    + rewrite Hrun. vm_compute. reflexivity.
Defined.

(** The upstream answers both handlers with the JSON value null. *)
Lemma falsy_body_is_empty_mapping_witness :
  fst (@search_foods decimal_builtins (Some "key")
         (λ _, inr {| status_code := 200; json := Some VNull |}) "apple" 3 [])
    = Ok (SearchResponse.mk [] 0 3 0) ∧
  fst (@get_food_details decimal_builtins (Some "key")
         (λ _, inr {| status_code := 200; json := Some VNull |}) 42 [])
    = Ok (FoodDetails.mk 42 "Unknown item" (Nutrients.mk None None None None None)).
Proof.
  destruct (@falsy_body_is_empty_mapping decimal_builtins "key"
              (λ _, inr {| status_code := 200; json := Some VNull |})
              "apple" 3 42 []) as [Hsearch Hdetails].
  - discriminate.
  - split.
    + by apply (Hsearch {| status_code := 200; json := Some VNull |} VNull).
    + by apply (Hdetails {| status_code := 200; json := Some VNull |} VNull).
Defined.

(** The upstream reports page 0 for a request of page 3. *)
Lemma falsy_current_page_falls_back_witness :
  fst (@search_foods decimal_builtins (Some "key")
         (λ _, inr {| status_code := 200;
                      json := Some (VDict (<["currentPage" := VInt 0]>
                                           {["totalHits" := VInt 7]})) |})
         "apple" 3 [])
  = Ok (SearchResponse.mk [] 7 3 0).
Proof.
  destruct (@falsy_current_page_falls_back decimal_builtins "key"
    (λ _, inr {| status_code := 200;
                 json := Some (VDict (<["currentPage" := VInt 0]>
                                      {["totalHits" := VInt 7]})) |})
    "apple" 3 []
    {| status_code := 200;
       json := Some (VDict (<["currentPage" := VInt 0]> {["totalHits" := VInt 7]})) |}
    (<["currentPage" := VInt 0]> {["totalHits" := VInt 7]}) (VInt 0))
    as (Hrun & _ & _).
  - discriminate.
  - reflexivity.
  - reflexivity.
  - reflexivity.
  - vm_compute. reflexivity.
  - reflexivity.
  - rewrite Hrun. vm_compute. reflexivity.
Defined.

(** The upstream reports the identifier 0 and an empty description. *)
Lemma details_defaults_witness :
  ∃ r,
    fst (@get_food_details decimal_builtins (Some "key")
           (λ _, inr {| status_code := 200;
                        json := Some (VDict (<["fdcId" := VInt 0]>
                                             {["description" := VStr ""]})) |})
           42 [])
    = Ok r ∧
    FoodDetails.fdcId r = 42 ∧ FoodDetails.description r = "Unknown item".
Proof.
  exists (FoodDetails.mk 42 "Unknown item" (Nutrients.mk None None None None None)).
  split; [vm_compute; reflexivity|].
  destruct (@details_defaults decimal_builtins "key"
    (λ _, inr {| status_code := 200;
                 json := Some (VDict (<["fdcId" := VInt 0]>
                                      {["description" := VStr ""]})) |})
    42 []
    {| status_code := 200;
       json := Some (VDict (<["fdcId" := VInt 0]> {["description" := VStr ""]})) |}
    (<["fdcId" := VInt 0]> {["description" := VStr ""]})
    (FoodDetails.mk 42 "Unknown item" (Nutrients.mk None None None None None)))
    as [Hid Hdescription].
  - discriminate.
  - reflexivity.
  - reflexivity.
  - reflexivity.
  - vm_compute. reflexivity.
  - split; [apply Hid | apply Hdescription]; vm_compute; reflexivity.
Defined.

(** The upstream reports no foods and null totals for page 2. *)
Lemma search_defaults_witness :
  ∃ r,
    fst (@search_foods decimal_builtins (Some "key")
           (λ _, inr {| status_code := 200;
                        json := Some (VDict (<["totalHits" := VNull]>
                                             (<["totalPages" := VNull]>
                                              {["currentPage" := VInt 2]}))) |})
           "apple" 2 [])
    = Ok r ∧
    SearchResponse.foods r = [] ∧
    SearchResponse.totalHits r = 0 ∧
    SearchResponse.totalPages r = 0.
Proof.
  exists (SearchResponse.mk [] 0 2 0).
  split; [vm_compute; reflexivity|].
  destruct (@search_defaults decimal_builtins "key"
    (λ _, inr {| status_code := 200;
                 json := Some (VDict (<["totalHits" := VNull]>
                                      (<["totalPages" := VNull]>
                                       {["currentPage" := VInt 2]}))) |})
    "apple" 2 []
    {| status_code := 200;
       json := Some (VDict (<["totalHits" := VNull]>
                            (<["totalPages" := VNull]> {["currentPage" := VInt 2]}))) |}
    (<["totalHits" := VNull]> (<["totalPages" := VNull]> {["currentPage" := VInt 2]}))
    (SearchResponse.mk [] 0 2 0))
    as (Hfoods & Hhits & Hpages).
  - discriminate.
  - reflexivity.
  - reflexivity.
  - reflexivity.
  - vm_compute. reflexivity.
  - split; [apply Hfoods|split; [apply Hhits|apply Hpages]];
      vm_compute; reflexivity.
Defined.
